(** * get_spectra_geoparquet: the retrieval operation and its host adapter

    A shallow embedding of
    [src/msc_pygeoapi/process/weather/get_spectra_geoparquet.py]:
    the function [get_spectra_geoparquet] and the method
    [GetSpectraGeoparquetProcessor.execute].

    Conventions of the embedding.
    - Python [str] values are ASCII texts ([string]); [str.lower] and
      [str.upper] act on the letters a-z and A-Z.
    - A parameter that Python may hold as [None] or as a [str] is an
      [option string]; the parameter types are the ones PROCESS_METADATA
      declares (strings, an array of arrays for [filters], a boolean for
      [remove_duplicates]).
    - Exceptions are values [(class, str(e))]; a computation returns the
      list of its observable events (log records, calls of the table
      reader) together with [Return v] or [Raise e].
    - [pandas.read_parquet] and [shapely.from_wkb] are external: they are
      parameters of the embedding.
    - A binary64 number is kept as its 64-bit pattern: the program only
      moves coordinates around, it does no arithmetic on them. *)

From Stdlib Require Import String Ascii Strings.Byte List ZArith Bool Arith Lia.
Set Warnings "-register-all".
Import ListNotations.
Open Scope list_scope.
Open Scope string_scope.

(** ** Python strings *)

Module PyStr.

Definition ascii_lower (c : ascii) : ascii :=
  let n := nat_of_ascii c in
  if (65 <=? n)%nat && (n <=? 90)%nat then ascii_of_nat (n + 32) else c.

Definition ascii_upper (c : ascii) : ascii :=
  let n := nat_of_ascii c in
  if (97 <=? n)%nat && (n <=? 122)%nat then ascii_of_nat (n - 32) else c.

Fixpoint map_chars (f : ascii -> ascii) (s : string) : string :=
  match s with
  | EmptyString => EmptyString
  | String c r => String (f c) (map_chars f r)
  end.

(** [s.lower()] and [s.upper()] *)
Definition lower (s : string) : string := map_chars ascii_lower s.
Definition upper (s : string) : string := map_chars ascii_upper s.

(** [s.split(sep)] for a one-character separator: the pieces between
    the separators, empty pieces kept, never an empty list. *)
Fixpoint split (sep : ascii) (s : string) : list string :=
  match s with
  | EmptyString => [EmptyString]
  | String c r =>
      if Ascii.eqb c sep then EmptyString :: split sep r
      else match split sep r with
           | h :: t => String c h :: t
           | [] => [String c EmptyString]
           end
  end.

(** [sep.join(pieces)] *)
Fixpoint join (sep : ascii) (l : list string) : string :=
  match l with
  | [] => EmptyString
  | [s] => s
  | s :: rest => s ++ String sep (join sep rest)
  end.

Fixpoint has_char (c : ascii) (s : string) : bool :=
  match s with
  | EmptyString => false
  | String d r => Ascii.eqb d c || has_char c r
  end.

(** [x in (a, b, ...)] for strings *)
Definition in_tuple (x : string) (t : list string) : bool :=
  existsb (String.eqb x) t.

(** [part in whole], as a proposition *)
Definition contains (whole part : string) : Prop :=
  exists pre post, whole = pre ++ part ++ post.

End PyStr.

(** ** Exceptions, outcomes and observable events *)

Inductive exn_class : Type :=
| Exception_            (* the base class Exception itself *)
| ValueError
| EmptyDataError        (* pandas.errors.EmptyDataError, a ValueError *)
| OSError
| FileNotFoundError     (* an OSError *)
| AttributeError
| TypeError
| KeyError
| GEOSException         (* shapely.errors.GEOSException *)
| ProcessorExecuteError. (* pygeoapi.process.base *)

Definition exn_class_eqb (a b : exn_class) : bool :=
  match a, b with
  | Exception_, Exception_ | ValueError, ValueError
  | EmptyDataError, EmptyDataError | OSError, OSError
  | FileNotFoundError, FileNotFoundError | AttributeError, AttributeError
  | TypeError, TypeError | KeyError, KeyError
  | GEOSException, GEOSException
  | ProcessorExecuteError, ProcessorExecuteError => true
  | _, _ => false
  end.

(** [issubclass(c, base)]: what an [except base] clause catches. *)
Definition issubclass (c base : exn_class) : bool :=
  match base with
  | Exception_ => true
  | ValueError =>
      match c with ValueError | EmptyDataError => true | _ => false end
  | OSError =>
      match c with OSError | FileNotFoundError => true | _ => false end
  | _ => exn_class_eqb c base
  end.

(** An exception: its class and [str(e)]. *)
Definition exn : Type := (exn_class * string)%type.

Inductive outcome (A : Type) : Type :=
| Return (a : A)
| Raise (e : exn).
Arguments Return {A} a.
Arguments Raise {A} e.

(** A JSON value of a filter clause (numbers are integers). *)
Inductive jval : Type :=
| JNull
| JBool (b : bool)
| JInt (z : Z)
| JStr (s : string)
| JList (l : list jval).

(** A Python tuple, as [tuple(filter)] builds it. *)
Inductive pytuple : Type :=
| Tuple (items : list jval).

Definition tuple_items (t : pytuple) : list jval :=
  match t with Tuple items => items end.

Inductive event : Type :=
| LogError (msg : string)
| ReadParquet (path : string) (columns : option (list string))
              (filters : option (list pytuple)).

(** A computation: the events it emitted, in order, and how it ended. *)
Definition M (A : Type) : Type := (list event * outcome A)%type.

Definition ret {A} (a : A) : M A := ([], Return a).
Definition raise {A} (e : exn) : M A := ([], Raise e).
Definition lift {A} (r : outcome A) : M A := ([], r).
Definition emit (ev : event) : M unit := ([ev], Return tt).

Definition bind {A B} (m : M A) (k : A -> M B) : M B :=
  match m with
  | (t, Return a) => let (t', r) := k a in ((t ++ t')%list, r)
  | (t, Raise e) => (t, Raise e)
  end.

(** [try: m  except c1 as e: h1 e  except c2 as e: h2 e ...]: the first
    clause whose class the exception is an instance of handles it; what a
    handler raises is not offered to the other clauses. *)
Fixpoint find_clause {A} (c : exn_class)
    (clauses : list (exn_class * (exn -> M A))) : option (exn -> M A) :=
  match clauses with
  | [] => None
  | (base, h) :: rest =>
      if issubclass c base then Some h else find_clause c rest
  end.

Definition try_except {A} (m : M A)
    (clauses : list (exn_class * (exn -> M A))) : M A :=
  match m with
  | (t, Raise e) =>
      match find_clause (fst e) clauses with
      | Some handler => let (t', r) := handler e in ((t ++ t')%list, r)
      | None => (t, Raise e)
      end
  | done => done
  end.

Declare Scope py_scope.
Delimit Scope py_scope with py.
Notation "x <- c ;; k" := (bind c (fun x => k))
  (at level 61, c at next level, right associativity) : py_scope.
Notation "c ;;; k" := (bind c (fun _ => k))
  (at level 61, right associativity) : py_scope.
Open Scope py_scope.

Definition trace_of {A} (m : M A) : list event := fst m.
Definition outcome_of {A} (m : M A) : outcome A := snd m.

(** ** Path resolution (lines 124 and 143-148) *)

Definition MAIN_URL : string :=
  "https://goc-dx.science.gc.ca/~swav000/geoparquet".

Definition family_A : list string := ["gewps"; "gdwps"].
Definition family_B : list string := ["rdwps"; "rewps"].

(** [v.attr()] on a value that is [None] or a [str]. *)
Definition str_method (attr : string) (f : string -> string)
    (v : option string) : outcome string :=
  match v with
  | Some s => Return (f s)
  | None =>
      Raise (AttributeError,
             "'NoneType' object has no attribute '" ++ attr ++ "'")
  end.

(** [f"{v}"] on a value that is [None] or a [str]. *)
Definition fmt (v : option string) : string :=
  match v with Some s => s | None => "None" end.

Definition obind {A B} (r : outcome A) (k : A -> outcome B) : outcome B :=
  match r with Return a => k a | Raise e => Raise e end.

(** The [if]/[elif]/[else] of lines 143-148: the path, or the exception
    raised while choosing it. *)
Definition resolve_path (model variable date region : option string)
    : outcome string :=
  match model with
  | None => str_method "lower" PyStr.lower None
  | Some m =>
      if PyStr.in_tuple (PyStr.lower m) family_A then
        obind (str_method "upper" PyStr.upper variable) (fun vu =>
        Return (MAIN_URL ++ "/" ++ PyStr.lower m ++ "/" ++ fmt date
                  ++ "_MSC_" ++ PyStr.upper m ++ "_" ++ vu
                  ++ ".geoparquet"))
      else if PyStr.in_tuple (PyStr.lower m) family_B then
        obind (str_method "upper" PyStr.upper variable) (fun vu =>
        Return (MAIN_URL ++ "/" ++ PyStr.lower m ++ "/" ++ fmt date
                  ++ "_MSC_" ++ PyStr.upper m ++ "-" ++ fmt region ++ "_"
                  ++ vu ++ ".geoparquet"))
      else Raise (ValueError, "Invalid model " ++ m)
  end.

(** ** Tables (the part of pandas the program uses) *)

(** A binary64 number, as its bit pattern. *)
Definition float : Type := Z.

Definition float_is_nan (f : float) : bool :=
  (Z.land (Z.shiftr f 52) 2047 =? 2047)%Z
  && negb (Z.land f (2 ^ 52 - 1) =? 0)%Z.

Definition float_is_zero (f : float) : bool :=
  (Z.land f (2 ^ 63 - 1) =? 0)%Z.

(** [a == b] on floats *)
Definition float_eq (a b : float) : bool :=
  negb (float_is_nan a) && negb (float_is_nan b)
  && ((a =? b)%Z || (float_is_zero a && float_is_zero b)).

(** the duplicate test of pandas on floats: [a == b], or both NaN *)
Definition float_same (a b : float) : bool :=
  float_eq a b || (float_is_nan a && float_is_nan b).

(** A cell of a table read from a parquet file (scalar columns and binary
    columns; the cells of one column, and the labels of one index, have
    one type). *)
Inductive cell : Type :=
| CNone
| CBool (b : bool)
| CInt (z : Z)
| CFloat (f : float)
| CStr (s : string)
| CBytes (b : list byte).

Fixpoint bytes_eqb (a b : list byte) : bool :=
  match a, b with
  | [], [] => true
  | x :: a', y :: b' => Byte.eqb x y && bytes_eqb a' b'
  | _, _ => false
  end.

Definition cell_cmp (feq : float -> float -> bool) (a b : cell) : bool :=
  match a, b with
  | CNone, CNone => true
  | CBool x, CBool y => Bool.eqb x y
  | CInt x, CInt y => (x =? y)%Z
  | CFloat x, CFloat y => feq x y
  | CStr x, CStr y => String.eqb x y
  | CBytes x, CBytes y => bytes_eqb x y
  | _, _ => false
  end.

(** equality of row labels used as dictionary keys *)
Definition key_eqb : cell -> cell -> bool := cell_cmp float_eq.
(** equality of cells when rows are compared by [drop_duplicates] *)
Definition cell_same : cell -> cell -> bool := cell_cmp float_same.

(** A cell of the table the program returns: a cell as read, or the
    record [{'y': ..., 'x': ...}] built from a point. *)
Inductive value : Type :=
| VCell (c : cell)
| VDict (d : list (string * float)).

Record DataFrame (A : Type) : Type := mkFrame {
  index_name : option string;        (* df.index.name *)
  index : list cell;                 (* the row labels *)
  columns : list (string * list A)   (* the columns, in order *)
}.
Arguments mkFrame {A} _ _ _.
Arguments index_name {A} _.
Arguments index {A} _.
Arguments columns {A} _.

Definition names {A} (df : DataFrame A) : list string :=
  map fst (columns df).
Definition nrows {A} (df : DataFrame A) : nat := length (index df).

(** The shape pandas gives a table: distinct column names, one cell per
    row in every column. *)
Definition frame_ok {A} (df : DataFrame A) : Prop :=
  NoDup (names df)
  /\ Forall (fun c => length (snd c) = nrows df) (columns df).

(** [RangeIndex(n)] *)
Definition range_index (n : nat) : list cell :=
  map (fun i => CInt (Z.of_nat i)) (seq 0 n).

Definition frame_map {A B} (f : A -> B) (df : DataFrame A) : DataFrame B :=
  mkFrame (index_name df) (index df)
          (map (fun c => (fst c, map f (snd c))) (columns df)).

(** [name in df.columns] *)
Definition has_column {A} (name : string) (df : DataFrame A) : bool :=
  existsb (String.eqb name) (names df).

Fixpoint assoc {A} (name : string) (l : list (string * A)) : option A :=
  match l with
  | [] => None
  | (k, v) :: rest => if String.eqb name k then Some v else assoc name rest
  end.

(** [df[name]], [None] when there is no such column *)
Definition get_column {A} (name : string) (df : DataFrame A)
    : option (list A) :=
  assoc name (columns df).

Definition dquote : string := String (ascii_of_nat 34) EmptyString.

Definition remove_named {A} (name : string) (l : list (string * A))
    : list (string * A) :=
  filter (fun c => negb (String.eqb name (fst c))) l.

(** [df.drop(columns=[name])] *)
Definition drop_column {A} (name : string) (df : DataFrame A)
    : outcome (DataFrame A) :=
  if has_column name df
  then Return (mkFrame (index_name df) (index df)
                       (remove_named name (columns df)))
  else Raise (KeyError,
              dquote ++ "['" ++ name ++ "'] not found in axis" ++ dquote).

Fixpoint replace_named {A} (name : string) (v : A) (l : list (string * A))
    : list (string * A) :=
  match l with
  | [] => []
  | (k, w) :: rest =>
      (k, if String.eqb name k then v else w) :: replace_named name v rest
  end.

(** [df[name] = vals] for a series carrying the index of [df]: an existing
    column of that name is replaced where it stands, a new one goes last. *)
Definition set_column {A} (name : string) (vals : list A)
    (df : DataFrame A) : DataFrame A :=
  mkFrame (index_name df) (index df)
    (if has_column name df then replace_named name vals (columns df)
     else (columns df ++ [(name, vals)])%list).

(** [df.reset_index(inplace=True)]: the old labels become the first
    column, named after the index, or "index" (or "level_0" when a column
    "index" exists) for an index without a name. *)
Definition reset_index (df : DataFrame value) : outcome (DataFrame value) :=
  let name :=
    match index_name df with
    | Some n => n
    | None => if has_column "index" df then "level_0" else "index"
    end in
  if has_column name df
  then Raise (ValueError, "cannot insert " ++ name ++ ", already exists")
  else Return (mkFrame None (range_index (nrows df))
                       ((name, map VCell (index df)) :: columns df)).

(** [df.empty] *)
Definition frame_empty {A} (df : DataFrame A) : bool :=
  (nrows df =? 0)%nat || (length (columns df) =? 0)%nat.

Definition row_at (df : DataFrame cell) (i : nat) : list cell :=
  map (fun c => nth i (snd c) CNone) (columns df).

Fixpoint row_same (r1 r2 : list cell) : bool :=
  match r1, r2 with
  | [], [] => true
  | a :: r1', b :: r2' => cell_same a b && row_same r1' r2'
  | _, _ => false
  end.

(** For each row, whether it is the first of its kind. *)
Fixpoint first_occurrences (seen rows : list (list cell)) : list bool :=
  match rows with
  | [] => []
  | r :: rest =>
      if existsb (row_same r) seen then false :: first_occurrences seen rest
      else true :: first_occurrences (r :: seen) rest
  end.

Fixpoint select {A} (mask : list bool) (l : list A) : list A :=
  match mask, l with
  | b :: mask', x :: l' =>
      if b then x :: select mask' l' else select mask' l'
  | _, _ => []
  end.

Definition keep_mask (df : DataFrame cell) : list bool :=
  first_occurrences [] (map (row_at df) (seq 0 (nrows df))).

(** [df.drop_duplicates(ignore_index=True)] *)
Definition drop_duplicates (df : DataFrame cell) : DataFrame cell :=
  if frame_empty df then df
  else
    let mask := keep_mask df in
    mkFrame None (range_index (length (select mask (index df))))
            (map (fun c => (fst c, select mask (snd c))) (columns df)).

(** A Python dict: the items in insertion order. *)
Definition pydict (K V : Type) : Type := list (K * V).

Fixpoint dict_set {K V} (eqb : K -> K -> bool) (k : K) (v : V)
    (d : pydict K V) : pydict K V :=
  match d with
  | [] => [(k, v)]
  | (k', v') :: rest =>
      if eqb k k' then (k', v) :: rest
      else (k', v') :: dict_set eqb k v rest
  end.

Fixpoint dict_get {K V} (eqb : K -> K -> bool) (k : K) (d : pydict K V)
    : option V :=
  match d with
  | [] => None
  | (k', v') :: rest => if eqb k k' then Some v' else dict_get eqb k rest
  end.

(** [{k: v for k, v in items}] *)
Definition dict_of {K V} (eqb : K -> K -> bool) (items : list (K * V))
    : pydict K V :=
  fold_left (fun d kv => dict_set eqb (fst kv) (snd kv) d) items [].

(** No key of [l] equals an earlier key of [l] or a key of [seen]. *)
Fixpoint distinct_keys {K} (eqb : K -> K -> bool) (seen l : list K) : bool :=
  match l with
  | [] => true
  | k :: r =>
      negb (existsb (eqb k) seen) && distinct_keys eqb (seen ++ [k]) r
  end.

(** The mapping the operation returns: column name, then row label. *)
Definition output : Type := pydict string (pydict cell value).

(** [df.to_dict()] *)
Definition to_dict (df : DataFrame value) : output :=
  dict_of String.eqb
    (map (fun c => (fst c, dict_of key_eqb (combine (index df) (snd c))))
         (columns df)).

(** What [from_wkb] returns: a point with its coordinates; an empty point
    (what a well-known-binary point whose coordinates are both NaN decodes
    to), with the text GEOS gives when a coordinate of it is read; or an
    object of another type. *)
Inductive geometry : Type :=
| Point (x y : float)
| EmptyPoint (error : string)
| NotPoint (type_name : string).

(** [lambda p: {'y': p.y, 'x': p.x}] *)
Definition point_record (p : geometry) : outcome value :=
  match p with
  | Point x y => Return (VDict [("y", y); ("x", x)])
  | EmptyPoint error => Raise (GEOSException, error)
  | NotPoint t =>
      Raise (AttributeError, "'" ++ t ++ "' object has no attribute 'y'")
  end.

(** A point and its record, from a pair of coordinates (x, y). *)
Definition point_of (xy : float * float) : geometry :=
  Point (fst xy) (snd xy).
Definition record_of (xy : float * float) : value :=
  VDict [("y", snd xy); ("x", fst xy)].

(** [series.map(f)]: [f] on every entry in order, stopping at the first
    exception. *)
Fixpoint series_map {A B} (f : A -> outcome B) (l : list A)
    : outcome (list B) :=
  match l with
  | [] => Return []
  | a :: rest =>
      obind (f a) (fun b =>
      obind (series_map f rest) (fun bs => Return (b :: bs)))
  end.

(** [if x:] on a value that is [None] or a [bool] *)
Definition truthy (b : option bool) : bool :=
  match b with Some true => true | _ => false end.

(** ** The retrieval operation (lines 126-175) *)

Definition reader : Type :=
  string -> option (list string) -> option (list pytuple)
  -> outcome (DataFrame cell).

Definition decoder : Type := cell -> outcome geometry.

Section Operation.

(** [pd.read_parquet(path, engine='pyarrow', columns=..., filters=...)]:
    the table, or the exception of the load. *)
Variable read_parquet : reader.
(** [shapely.from_wkb] *)
Variable from_wkb : decoder.

Definition call_read_parquet (path : string)
    (columns : option (list string)) (filters : option (list pytuple))
    : M (DataFrame cell) :=
  ([ReadParquet path columns filters], read_parquet path columns filters).

(** Lines 162-170, the body of [if "geometry" in df.columns]. *)
Definition convert_geometry (geom : list cell) (df : DataFrame cell)
    : outcome (DataFrame value) :=
  obind (drop_column "geometry" (frame_map VCell df)) (fun df =>
  obind (series_map from_wkb geom) (fun geom =>
  obind (series_map point_record geom) (fun geom =>
  let df := set_column "point" geom df in
  obind (reset_index df) (fun df =>
  drop_column "index" df)))).

(** Lines 159-175: everything after the load. *)
Definition transform (remove_duplicates : option bool)
    (df : DataFrame cell) : outcome output :=
  let df := if truthy remove_duplicates then drop_duplicates df else df in
  obind
    match get_column "geometry" df with
    | Some geom => convert_geometry geom df
    | None => Return (frame_map VCell df)
    end
    (fun df => Return (to_dict df)).

(** The three [except] clauses of lines 152-157. *)
Definition load_clauses :
    list (exn_class * (exn -> M (DataFrame cell))) :=
  [ (FileNotFoundError,
     fun e => raise (FileNotFoundError, "File not found: " ++ snd e));
    (EmptyDataError,
     fun e => raise (EmptyDataError, "Empty data: " ++ snd e));
    (Exception_,
     fun e => raise (Exception_,
                     "An unexpected error occurred: " ++ snd e)) ].

Definition get_spectra_geoparquet
    (model variable date : option string)
    (region : option string)
    (columns : option string)
    (filters : option (list (list jval)))
    (remove_duplicates : option bool) : M output :=
  let columns := option_map (PyStr.split ";") columns in
  let filters := option_map (map Tuple) filters in
  path <- lift (resolve_path model variable date region) ;;
  df <- try_except (call_read_parquet path columns filters)
                   load_clauses ;;
  lift (transform remove_duplicates df).

End Operation.

(** ** The host adapter (lines 194-232) *)

(** The request payload. For every parameter, what [data.get(param)]
    gives: a value of its declared type, or [None] when the key is absent
    or was sent with the value null; and the keys that were sent with the
    value null, for which [param in data] holds all the same. *)
Record payload : Type := mkPayloadWithNulls {
  p_model : option string;
  p_variable : option string;
  p_date : option string;
  p_region : option string;
  p_columns : option string;
  p_filters : option (list (list jval));
  p_remove_duplicates : option bool;
  p_null_keys : list string
}.

(** A payload in which no key has the value null. *)
Definition mkPayload (model variable date region columns : option string)
    (filters : option (list (list jval))) (remove_duplicates : option bool)
    : payload :=
  mkPayloadWithNulls model variable date region columns filters
    remove_duplicates [].

Definition is_some {A} (o : option A) : bool :=
  match o with Some _ => true | None => false end.

(** [param in data]: the key has a value, or the value null. *)
Definition has_key (data : payload) (param : string) : bool :=
  (if String.eqb param "model" then is_some (p_model data)
   else if String.eqb param "variable" then is_some (p_variable data)
   else if String.eqb param "date" then is_some (p_date data)
   else if String.eqb param "region" then is_some (p_region data)
   else if String.eqb param "columns" then is_some (p_columns data)
   else if String.eqb param "filters" then is_some (p_filters data)
   else if String.eqb param "remove_duplicates"
        then is_some (p_remove_duplicates data)
   else false)
  || existsb (String.eqb param) (p_null_keys data).

(** The signature of [get_spectra_geoparquet]. *)
Definition operation : Type :=
  option string -> option string -> option string -> option string
  -> option string -> option (list (list jval)) -> option bool -> M output.

(** Lines 195-201: the parameters the model asks for. *)
Definition required_params (model : option string) : outcome (list string) :=
  obind (str_method "lower" PyStr.lower model) (fun ml =>
  if PyStr.in_tuple ml ["gdwps"; "gewps"]
  then Return ["model"; "variable"; "date"]
  else if PyStr.in_tuple ml ["rdwps"; "rewps"]
  then Return ["model"; "variable"; "date"; "region"]
  else Raise (ValueError, "Invalid model " ++ fmt model)).

(** [execute], over the operation it calls at line 218. *)
Definition execute_with (op : operation) (data : payload)
    : M (string * output) :=
  let model := p_model data in
  required <- lift (required_params model) ;;
  if negb (forallb (has_key data) required) then
    let msg := "Missing required parameters." in
    emit (LogError msg) ;;;
    raise (ProcessorExecuteError, msg)
  else
    let var := p_variable data in
    let date := p_date data in
    let region := p_region data in
    let cols := p_columns data in
    let filters := p_filters data in
    let remove_duplicates := p_remove_duplicates data in
    let mimetype := "application/json" in
    output <- try_except
                (op model var date region cols filters remove_duplicates)
                [ (ValueError,
                   fun err =>
                     let msg := "Process execution error: " ++ snd err in
                     emit (LogError msg) ;;;
                     raise (ProcessorExecuteError, msg)) ] ;;
    ret (mimetype, output).

(** [GetSpectraGeoparquetProcessor.execute] *)
Definition execute (read_parquet : reader) (from_wkb : decoder)
    (data : payload) : M (string * output) :=
  execute_with (get_spectra_geoparquet read_parquet from_wkb) data.

(** The call of line 218, with the arguments read from the payload. *)
Definition call_operation (op : operation) (data : payload) : M output :=
  op (p_model data) (p_variable data) (p_date data) (p_region data)
     (p_columns data) (p_filters data) (p_remove_duplicates data).

(** ** Sample inputs *)

(** A decoder for little-endian well-known-binary points: the byte 01,
    the type 1 on four bytes, then x and y on eight bytes each; the point
    is empty when both are NaN. *)
Definition le_word (bs : list byte) : Z :=
  fold_right (fun b acc => (Z.of_N (Byte.to_N b) + 256 * acc)%Z) 0%Z bs.

Definition wkb_point_le : decoder :=
  fun c =>
    match c with
    | CBytes (x01 :: x01 :: x00 :: x00 :: x00 :: rest) =>
        if (length rest =? 16)%nat
        then
          let x := le_word (firstn 8 rest) in
          let y := le_word (skipn 8 rest) in
          if float_is_nan x && float_is_nan y
          then Return (EmptyPoint
                         "UnsupportedOperationException: getY called on empty Point")
          else Return (Point x y)
        else Raise (Exception_, "ParseException: invalid point")
    | CBytes _ => Raise (Exception_, "ParseException: unsupported geometry")
    | CNone => Return (NotPoint "NoneType")
    | _ => Raise (TypeError, "Expected bytes or string")
    end.

(** The point (1.0, 2.0). *)
Definition wkb_1_2 : cell :=
  CBytes [x01; x01; x00; x00; x00;
          x00; x00; x00; x00; x00; x00; xf0; x3f;
          x00; x00; x00; x00; x00; x00; x00; x40].
(** The point (2.0, 1.0). *)
Definition wkb_2_1 : cell :=
  CBytes [x01; x01; x00; x00; x00;
          x00; x00; x00; x00; x00; x00; x00; x40;
          x00; x00; x00; x00; x00; x00; xf0; x3f].

(** A point whose coordinates are both NaN (0x7FF8000000000000). *)
Definition wkb_nan : cell :=
  CBytes [x01; x01; x00; x00; x00;
          x00; x00; x00; x00; x00; x00; xf8; x7f;
          x00; x00; x00; x00; x00; x00; xf8; x7f].

Definition f_one : float := 4607182418800017408%Z.  (* 0x3FF0000000000000 *)
Definition f_two : float := 4611686018427387904%Z.  (* 0x4000000000000000 *)

(** Readers that answer every call the same way. *)
Definition reader_of (df : DataFrame cell) : reader :=
  fun _ _ _ => Return df.
Definition failing_reader (e : exn) : reader :=
  fun _ _ _ => Raise e.

Definition stations : DataFrame cell :=
  mkFrame None (range_index 3)
    [ ("station_name", [CStr "00N000E"; CStr "46N131W"; CStr "00N000E"]);
      ("member", [CInt 0; CInt 0; CInt 0]);
      ("geometry", [wkb_1_2; wkb_2_1; wkb_1_2]) ].

Definition plain_table : DataFrame cell :=
  mkFrame None [CInt 10; CInt 20]
    [ ("station_name", [CStr "00N000E"; CStr "46N131W"]);
      ("member", [CInt 0; CInt 1]) ].

Definition table_with_point : DataFrame cell :=
  mkFrame None (range_index 1)
    [ ("point", [CInt 7]); ("geometry", [wkb_1_2]) ].

Definition table_with_index : DataFrame cell :=
  mkFrame None (range_index 1)
    [ ("index", [CInt 7]); ("geometry", [wkb_1_2]) ].

Definition table_named_index : DataFrame cell :=
  mkFrame (Some "time") [CInt 2025031500]
    [ ("member", [CInt 0]); ("geometry", [wkb_1_2]) ].

Definition table_with_level_0 : DataFrame cell :=
  mkFrame None (range_index 1)
    [ ("index", [CInt 7]); ("level_0", [CInt 8]); ("geometry", [wkb_1_2]) ].

(** The payload [{"model": "GEWPS", "variable": null, "date":
    "2025031500"}]. *)
Definition payload_null_variable : payload :=
  mkPayloadWithNulls (Some "GEWPS") None (Some "2025031500") None None None
    None ["variable"].

Definition example_inputs : payload :=
  mkPayload (Some "GEWPS") (Some "EFTH") (Some "2025031500") None
    (Some "station_name;member")
    (Some [ [JStr "station_name"; JStr "=="; JStr "00N000E"];
            [JStr "member"; JStr "=="; JInt 0] ])
    None.

Definition table_nan_point : DataFrame cell :=
  mkFrame None (range_index 2)
    [ ("member", [CInt 0; CInt 1]);
      ("geometry", [wkb_1_2; wkb_nan]) ].

Definition table_repeated_labels : DataFrame cell :=
  mkFrame None [CInt 0; CInt 0]
    [ ("member", [CInt 1; CInt 2]) ].

Definition table_bad_geometry : DataFrame cell :=
  mkFrame None (range_index 2)
    [ ("member", [CInt 0; CInt 1]);
      ("geometry", [CNone; CBytes [x00]]) ].

Definition table_null_geometry : DataFrame cell :=
  mkFrame None (range_index 2)
    [ ("member", [CInt 0; CInt 1]);
      ("geometry", [wkb_1_2; CNone]) ].

Definition table_with_point_first : DataFrame cell :=
  mkFrame None (range_index 1)
    [ ("point", [CInt 7]); ("member", [CInt 0]); ("geometry", [wkb_1_2]) ].

Definition table_with_index_column : DataFrame cell :=
  mkFrame None [CInt 40; CInt 50]
    [ ("index", [CInt 7; CInt 8]); ("geometry", [wkb_1_2; wkb_2_1]) ].

Definition table_named_index_2 : DataFrame cell :=
  mkFrame (Some "time") [CInt 2025031500; CInt 2025031500]
    [ ("member", [CInt 0; CInt 0]); ("geometry", [wkb_1_2; wkb_1_2]) ].

(** ** The rest of the module *)

(** One entry of [PROCESS_METADATA['inputs']] (lines 44-106): its key,
    the 'type' of its schema when it has one, 'nullable' when given,
    'minOccurs' and 'maxOccurs'. *)
Record input_decl : Type := mkInput {
  in_name : string;
  in_schema_type : option string;
  in_nullable : bool;
  in_minOccurs : nat;
  in_maxOccurs : nat
}.

Definition PROCESS_METADATA_inputs : list input_decl :=
  [ mkInput "model" (Some "string") false 1 1;
    mkInput "variable" None false 1 1;
    mkInput "date" (Some "string") false 1 1;
    mkInput "columns" (Some "string") true 0 1;
    mkInput "filters" (Some "array") true 0 1;
    mkInput "remove_duplicates" (Some "boolean") true 0 1 ].

(** [PROCESS_METADATA['example']['inputs']] (lines 113-121) *)
Definition PROCESS_METADATA_example : payload :=
  mkPayload (Some "GEWPS") (Some "EFTH") (Some "2025031500") None
    (Some "station_name;member")
    (Some [ [JStr "station_name"; JStr "=="; JStr "00N000E"];
            [JStr "member"; JStr "=="; JInt 0] ])
    None.

(** [GetSpectraGeoparquetProcessor.__repr__] (line 235), over
    [self.name]. *)
Definition processor_repr (name : string) : string :=
  "<ExtractWindDataProcessor> " ++ name.

(** ** Notions used to state the properties *)

(** Whether [s] holds ASCII characters only (codes below 128), on which
    [PyStr.lower] and [PyStr.upper] are [str.lower] and [str.upper]. *)
Fixpoint is_ascii (s : string) : bool :=
  match s with
  | EmptyString => true
  | String c r => (nat_of_ascii c <? 128)%nat && is_ascii r
  end.

(** How many times [c] occurs in [s]. *)
Fixpoint count_char (c : ascii) (s : string) : nat :=
  match s with
  | EmptyString => 0
  | String d r => (if Ascii.eqb d c then 1 else 0) + count_char c r
  end.

(** The table after line 164: the cells as output values, the column
    "geometry" dropped. *)
Definition geometry_dropped (df : DataFrame cell) : DataFrame value :=
  mkFrame (index_name df) (index df)
          (remove_named "geometry" (columns (frame_map VCell df))).

(** The steps that the table goes through after the load, duplicates
    removed when asked for. *)
Definition kept_table (remove_duplicates : option bool)
    (df : DataFrame cell) : DataFrame cell :=
  if truthy remove_duplicates then drop_duplicates df else df.

(** * Properties *)

(** ** Strings *)

Lemma in_tuple_In (x : string) (t : list string) :
  PyStr.in_tuple x t = true <-> In x t.
Proof.
  unfold PyStr.in_tuple. rewrite existsb_exists. split.
  - intros [y [Hy Heq]]. apply String.eqb_eq in Heq. now subst.
  - intros H. exists x. split; [exact H | apply String.eqb_refl].
Qed.

Lemma in_tuple_not_In (x : string) (t : list string) :
  ~ In x t -> PyStr.in_tuple x t = false.
Proof.
  intros H. destruct (PyStr.in_tuple x t) eqn:E; [|reflexivity].
  apply in_tuple_In in E. contradiction.
Qed.

Lemma split_not_nil (sep : ascii) (s : string) : PyStr.split sep s <> [].
Proof.
  destruct s as [|c r]; simpl; [discriminate|].
  destruct (Ascii.eqb c sep); [discriminate|].
  destruct (PyStr.split sep r); discriminate.
Qed.

Lemma join_cons_head (sep c : ascii) (h : string) (t : list string) :
  PyStr.join sep (String c h :: t) = String c (PyStr.join sep (h :: t)).
Proof. destruct t; reflexivity. Qed.

Lemma join_split (sep : ascii) (s : string) :
  PyStr.join sep (PyStr.split sep s) = s.
Proof.
  induction s as [|c r IH]; [reflexivity|].
  simpl. destruct (Ascii.eqb c sep) eqn:E.
  - apply Ascii.eqb_eq in E. subst c.
    destruct (PyStr.split sep r) as [|h t] eqn:Er.
    + now apply split_not_nil in Er.
    + change (PyStr.join sep (EmptyString :: h :: t))
        with (String sep (PyStr.join sep (h :: t))).
      now rewrite IH.
  - destruct (PyStr.split sep r) as [|h t] eqn:Er.
    + now apply split_not_nil in Er.
    + rewrite join_cons_head. now rewrite IH.
Qed.

Lemma split_pieces_clean (sep : ascii) (s : string) :
  Forall (fun p => PyStr.has_char sep p = false) (PyStr.split sep s).
Proof.
  induction s as [|c r IH]; simpl.
  - constructor; [reflexivity | constructor].
  - destruct (Ascii.eqb c sep) eqn:E.
    + constructor; [reflexivity | exact IH].
    + destruct (PyStr.split sep r) as [|h t].
      * constructor; [simpl; now rewrite E | constructor].
      * inversion IH as [|? ? Hh Ht]; subst.
        constructor; [simpl; now rewrite E, Hh | exact Ht].
Qed.

Lemma contains_suffix (pre s : string) : PyStr.contains (pre ++ s) s.
Proof.
  exists pre, EmptyString. f_equal.
  induction s as [|c r IH]; simpl; [reflexivity | now rewrite <- IH].
Qed.

Lemma map_tuple_items (f : list (list jval)) :
  map tuple_items (map Tuple f) = f.
Proof. induction f as [|x r IH]; simpl; [reflexivity | now rewrite IH]. Qed.

(** ** Dictionaries *)

Lemma dict_set_fresh {K V} (eqb : K -> K -> bool) (k : K) (v : V)
    (d : pydict K V) :
  existsb (eqb k) (map fst d) = false ->
  dict_set eqb k v d = (d ++ [(k, v)])%list.
Proof.
  induction d as [|[k' v'] d IH]; simpl; [reflexivity|].
  intros H. apply orb_false_iff in H. destruct H as [H1 H2].
  rewrite H1. now rewrite IH.
Qed.

Lemma dict_fold_distinct {K V} (eqb : K -> K -> bool)
    (items d : list (K * V)) :
  distinct_keys eqb (map fst d) (map fst items) = true ->
  fold_left (fun d kv => dict_set eqb (fst kv) (snd kv) d) items d
  = (d ++ items)%list.
Proof.
  revert d. induction items as [|[k v] items IH]; intros d H; simpl.
  - now rewrite app_nil_r.
  - simpl in H. apply andb_true_iff in H. destruct H as [H1 H2].
    apply negb_true_iff in H1.
    rewrite dict_set_fresh by exact H1.
    rewrite IH.
    + now rewrite <- app_assoc.
    + now rewrite map_app.
Qed.

Lemma dict_of_distinct {K V} (eqb : K -> K -> bool) (items : list (K * V)) :
  distinct_keys eqb [] (map fst items) = true ->
  dict_of eqb items = items.
Proof. intros H. unfold dict_of. now rewrite dict_fold_distinct. Qed.

Lemma existsb_eqb_notin (k : string) (l : list string) :
  ~ In k l -> existsb (String.eqb k) l = false.
Proof. intros H. apply (in_tuple_not_In k l H). Qed.

Lemma NoDup_distinct_keys (seen l : list string) :
  NoDup (seen ++ l) -> distinct_keys String.eqb seen l = true.
Proof.
  revert seen. induction l as [|k r IH]; intros seen H; [reflexivity|].
  simpl. apply andb_true_iff. split.
  - apply negb_true_iff, existsb_eqb_notin.
    apply NoDup_remove_2 in H. intros Hin. apply H.
    apply in_or_app. now left.
  - apply IH. now rewrite <- app_assoc.
Qed.

Lemma range_distinct_from (n s : nat) (seen : list cell) :
  Forall (fun c => exists i, c = CInt (Z.of_nat i) /\ i < s) seen ->
  distinct_keys key_eqb seen (map (fun i => CInt (Z.of_nat i)) (seq s n))
  = true.
Proof.
  revert s seen. induction n as [|n IH]; intros s seen H; [reflexivity|].
  simpl. apply andb_true_iff. split.
  - apply negb_true_iff.
    destruct (existsb (key_eqb (CInt (Z.of_nat s))) seen) eqn:E;
      [|reflexivity].
    apply existsb_exists in E. destruct E as [c [Hin Hc]].
    rewrite Forall_forall in H. destruct (H c Hin) as [i [-> Hi]].
    simpl in Hc. apply Z.eqb_eq in Hc. lia.
  - apply IH. apply Forall_app. split.
    + eapply Forall_impl; [|exact H].
      intros c [i [-> Hi]]. exists i. split; [reflexivity | lia].
    + constructor; [|constructor]. exists s. split; [reflexivity | lia].
Qed.

Lemma range_index_distinct (n : nat) :
  distinct_keys key_eqb [] (range_index n) = true.
Proof. apply range_distinct_from. constructor. Qed.

Lemma combine_map_seq_fst {V} (f : nat -> cell) (n s : nat) (vals : list V) :
  map fst (combine (map f (seq s n)) vals)
  = map f (seq s (Nat.min n (length vals))).
Proof.
  revert s vals. induction n as [|n IH]; intros s vals; [reflexivity|].
  destruct vals as [|v vals]; [reflexivity|].
  simpl. now rewrite IH.
Qed.

Lemma dict_of_range {V} (n : nat) (vals : list V) :
  dict_of key_eqb (combine (range_index n) vals)
  = combine (range_index n) vals.
Proof.
  apply dict_of_distinct. unfold range_index.
  rewrite combine_map_seq_fst. apply range_index_distinct.
Qed.

(** ** Tables *)

Lemma has_column_In {A} (name : string) (df : DataFrame A) :
  has_column name df = true <-> In name (names df).
Proof. apply in_tuple_In. Qed.

Lemma assoc_names {A} (name : string) (l : list (string * A)) :
  assoc name l = None <-> existsb (String.eqb name) (map fst l) = false.
Proof.
  induction l as [|[k v] l IH]; simpl; [tauto|].
  destruct (String.eqb name k); simpl; [split; discriminate | exact IH].
Qed.

Lemma get_column_none {A} (name : string) (df : DataFrame A) :
  get_column name df = None <-> has_column name df = false.
Proof. apply assoc_names. Qed.

Lemma get_column_some {A} (name : string) (df : DataFrame A) (vs : list A) :
  get_column name df = Some vs -> has_column name df = true.
Proof.
  intros H. destruct (has_column name df) eqn:E; [reflexivity|].
  apply get_column_none in E. congruence.
Qed.

Lemma assoc_map {A B} (f : A -> B) (name : string) (l : list (string * A)) :
  assoc name (map (fun c => (fst c, f (snd c))) l)
  = option_map f (assoc name l).
Proof.
  induction l as [|[k v] l IH]; simpl; [reflexivity|].
  destruct (String.eqb name k); [reflexivity | exact IH].
Qed.

Lemma names_map {A B} (f : A -> B) (l : list (string * A)) :
  map fst (map (fun c => (fst c, f (snd c))) l) = map fst l.
Proof. rewrite map_map. reflexivity. Qed.

Lemma dict_get_assoc {V} (name : string) (l : list (string * V)) :
  dict_get String.eqb name l = assoc name l.
Proof.
  induction l as [|[k v] l IH]; simpl; [reflexivity|].
  destruct (String.eqb name k); [reflexivity | exact IH].
Qed.

Lemma names_remove_named {A} (name : string) (l : list (string * A)) :
  map fst (remove_named name l)
  = filter (fun k => negb (String.eqb name k)) (map fst l).
Proof.
  induction l as [|[k v] l IH]; simpl; [reflexivity|].
  destruct (String.eqb name k); simpl; now rewrite IH.
Qed.

Lemma remove_named_absent {A} (name : string) (l : list (string * A)) :
  existsb (String.eqb name) (map fst l) = false ->
  remove_named name l = l.
Proof.
  induction l as [|[k v] l IH]; simpl; [reflexivity|].
  intros H. apply orb_false_iff in H. destruct H as [H1 H2].
  rewrite H1. simpl. now rewrite IH.
Qed.

Lemma assoc_remove_named_other {A} (name c : string)
    (l : list (string * A)) :
  c <> name -> assoc c (remove_named name l) = assoc c l.
Proof.
  intros Hne. induction l as [|[k v] l IH]; simpl; [reflexivity|].
  destruct (String.eqb name k) eqn:E1; simpl.
  - apply String.eqb_eq in E1. subst k.
    destruct (String.eqb c name) eqn:E2; [|exact IH].
    apply String.eqb_eq in E2. contradiction.
  - destruct (String.eqb c k); [reflexivity | exact IH].
Qed.

Lemma assoc_remove_named_same {A} (name : string) (l : list (string * A)) :
  assoc name (remove_named name l) = None.
Proof.
  induction l as [|[k v] l IH]; simpl; [reflexivity|].
  destruct (String.eqb name k) eqn:E; simpl; [exact IH|].
  now rewrite E.
Qed.

Lemma assoc_app {A} (name : string) (l1 l2 : list (string * A)) :
  assoc name (l1 ++ l2)
  = match assoc name l1 with Some v => Some v | None => assoc name l2 end.
Proof.
  induction l1 as [|[k v] l1 IH]; simpl; [reflexivity|].
  destruct (String.eqb name k); [reflexivity | exact IH].
Qed.

Lemma NoDup_filter {A} (f : A -> bool) (l : list A) :
  NoDup l -> NoDup (filter f l).
Proof.
  induction 1 as [|x l Hx Hl IH]; simpl; [constructor|].
  destruct (f x); [|exact IH].
  constructor; [|exact IH].
  intros Hin. apply filter_In in Hin. tauto.
Qed.

Lemma to_dict_distinct (df : DataFrame value) :
  NoDup (names df) ->
  to_dict df
  = map (fun c => (fst c, dict_of key_eqb (combine (index df) (snd c))))
        (columns df).
Proof.
  intros H. unfold to_dict. apply dict_of_distinct.
  rewrite (names_map (fun vs => dict_of key_eqb (combine (index df) vs))).
  apply NoDup_distinct_keys. exact H.
Qed.

(** *** [drop_duplicates] *)

Lemma select_length_le {A} (mask : list bool) (l : list A) :
  length (select mask l) <= length l.
Proof.
  revert l. induction mask as [|b mask IH]; intros [|x l]; simpl;
    try lia.
  destruct b; simpl; specialize (IH l); lia.
Qed.

Lemma select_length_eq {A B} (mask : list bool) (l1 : list A) (l2 : list B) :
  length l1 = length l2 ->
  length (select mask l1) = length (select mask l2).
Proof.
  revert l1 l2. induction mask as [|b mask IH]; intros [|x l1] [|y l2] H;
    simpl in *; try reflexivity; try discriminate.
  injection H as H. destruct b; simpl; now rewrite (IH l1 l2 H).
Qed.

Lemma select_Forall {A} (P : A -> Prop) (mask : list bool) (l : list A) :
  Forall P l -> Forall P (select mask l).
Proof.
  revert l. induction mask as [|b mask IH]; intros [|x l] H; simpl;
    try constructor.
  inversion H; subst. destruct b; [constructor|]; auto.
Qed.

Lemma names_drop_duplicates (df : DataFrame cell) :
  names (drop_duplicates df) = names df.
Proof.
  unfold drop_duplicates. destruct (frame_empty df); [reflexivity|].
  unfold names. simpl. apply names_map.
Qed.

Lemma nrows_drop_duplicates (df : DataFrame cell) :
  nrows (drop_duplicates df) <= nrows df.
Proof.
  unfold drop_duplicates. destruct (frame_empty df); [lia|].
  unfold nrows. simpl. unfold range_index.
  rewrite length_map, length_seq. apply select_length_le.
Qed.

Lemma frame_ok_drop_duplicates (df : DataFrame cell) :
  frame_ok df -> frame_ok (drop_duplicates df).
Proof.
  intros [Hn Hl]. split.
  - now rewrite names_drop_duplicates.
  - unfold drop_duplicates. destruct (frame_empty df); [exact Hl|].
    unfold nrows. simpl. unfold range_index.
    rewrite length_map, length_seq.
    apply Forall_map. eapply Forall_impl; [|exact Hl].
    intros c Hc. simpl. apply select_length_eq. exact Hc.
Qed.

Lemma index_name_drop_duplicates (df : DataFrame cell) :
  index_name df = None -> index_name (drop_duplicates df) = None.
Proof.
  intros H. unfold drop_duplicates. now destruct (frame_empty df).
Qed.

Lemma get_column_drop_duplicates (df : DataFrame cell) (name : string)
    (vs : list cell) :
  get_column name df = Some vs ->
  exists mask, get_column name (drop_duplicates df) = Some (select mask vs)
               \/ get_column name (drop_duplicates df) = Some vs.
Proof.
  intros H. unfold drop_duplicates. destruct (frame_empty df).
  - exists []. now right.
  - exists (keep_mask df). left. unfold get_column. simpl.
    rewrite assoc_map. unfold get_column in H. now rewrite H.
Qed.

(** ** The operation, step by step *)

Section OperationFacts.

Variable read_parquet : reader.
Variable from_wkb : decoder.

Variables (model variable date region columns : option string).
Variable filters : option (list (list jval)).
Variable remove_duplicates : option bool.

Let reader_columns := option_map (PyStr.split ";") columns.
Let reader_filters := option_map (map Tuple) filters.
Let run :=
  get_spectra_geoparquet read_parquet from_wkb model variable date region
    columns filters remove_duplicates.

Lemma run_no_path (e : exn) :
  resolve_path model variable date region = Raise e ->
  run = ([], Raise e).
Proof.
  intros H. unfold run, get_spectra_geoparquet. rewrite H. reflexivity.
Qed.

Lemma run_loaded (path : string) (df : DataFrame cell) :
  resolve_path model variable date region = Return path ->
  read_parquet path reader_columns reader_filters = Return df ->
  run = ([ReadParquet path reader_columns reader_filters],
         transform from_wkb remove_duplicates df).
Proof.
  intros Hp Hr. unfold run, get_spectra_geoparquet. rewrite Hp.
  unfold lift, call_read_parquet. simpl.
  fold reader_columns reader_filters. rewrite Hr. simpl.
  destruct (transform from_wkb remove_duplicates df); reflexivity.
Qed.

Lemma run_load_failed (path : string) (c : exn_class) (msg : string) :
  resolve_path model variable date region = Return path ->
  read_parquet path reader_columns reader_filters = Raise (c, msg) ->
  run = ([ReadParquet path reader_columns reader_filters],
         Raise (if issubclass c FileNotFoundError
                then (FileNotFoundError, "File not found: " ++ msg)
                else if issubclass c EmptyDataError
                then (EmptyDataError, "Empty data: " ++ msg)
                else (Exception_,
                      "An unexpected error occurred: " ++ msg))).
Proof.
  intros Hp Hr. unfold run, get_spectra_geoparquet. rewrite Hp.
  unfold lift, call_read_parquet. simpl.
  fold reader_columns reader_filters. rewrite Hr. simpl.
  destruct c; reflexivity.
Qed.

Lemma run_trace (path : string) :
  resolve_path model variable date region = Return path ->
  trace_of run = [ReadParquet path reader_columns reader_filters].
Proof.
  intros Hp.
  destruct (read_parquet path reader_columns reader_filters)
    as [df | [c msg]] eqn:Hr.
  - now rewrite (run_loaded path df Hp Hr).
  - now rewrite (run_load_failed path c msg Hp Hr).
Qed.

End OperationFacts.

(** ** Path resolution *)

Lemma family_A_path (m : string) (variable date region : option string)
    (v : string) :
  In (PyStr.lower m) family_A ->
  variable = Some v ->
  resolve_path (Some m) variable date region
  = Return (MAIN_URL ++ "/" ++ PyStr.lower m ++ "/" ++ fmt date ++ "_MSC_"
              ++ PyStr.upper m ++ "_" ++ PyStr.upper v ++ ".geoparquet").
Proof.
  intros H ->. unfold resolve_path.
  apply in_tuple_In in H. rewrite H. reflexivity.
Qed.

Lemma family_B_not_A (ml : string) :
  In ml family_B -> PyStr.in_tuple ml family_A = false.
Proof.
  intros [<- | [<- | []]]; reflexivity.
Qed.

Lemma family_B_path (m : string) (variable date region : option string)
    (v : string) :
  In (PyStr.lower m) family_B ->
  variable = Some v ->
  resolve_path (Some m) variable date region
  = Return (MAIN_URL ++ "/" ++ PyStr.lower m ++ "/" ++ fmt date ++ "_MSC_"
              ++ PyStr.upper m ++ "-" ++ fmt region ++ "_" ++ PyStr.upper v
              ++ ".geoparquet").
Proof.
  intros H ->. unfold resolve_path.
  rewrite (family_B_not_A _ H).
  apply in_tuple_In in H. rewrite H. reflexivity.
Qed.

Lemma unknown_model_path (m : string) (variable date region : option string) :
  ~ In (PyStr.lower m) family_A ->
  ~ In (PyStr.lower m) family_B ->
  resolve_path (Some m) variable date region
  = Raise (ValueError, "Invalid model " ++ m).
Proof.
  intros HA HB. unfold resolve_path.
  now rewrite (in_tuple_not_In _ _ HA), (in_tuple_not_In _ _ HB).
Qed.

(** C2. For a family-A model (gewps or gdwps, in any letter case) and any
    variable and date strings the path is
    base/model_lower/date_MSC_MODEL_VARIABLE.geoparquet; for a family-B
    model (rdwps or rewps) with a region it is
    base/model_lower/date_MSC_MODEL-region_VARIABLE.geoparquet, the region
    text taken as given; base is the constant MAIN_URL, and this path is
    the one the reader is called with. *)
Theorem resolved_path_follows_pattern
    (read_parquet : reader) (from_wkb : decoder)
    (m v d : string) (columns : option string)
    (filters : option (list (list jval))) (remove_duplicates : option bool) :
  (In (PyStr.lower m) family_A ->
   forall region,
   let path := MAIN_URL ++ "/" ++ PyStr.lower m ++ "/" ++ d ++ "_MSC_"
                 ++ PyStr.upper m ++ "_" ++ PyStr.upper v ++ ".geoparquet" in
   resolve_path (Some m) (Some v) (Some d) region = Return path
   /\ trace_of (get_spectra_geoparquet read_parquet from_wkb (Some m)
                  (Some v) (Some d) region columns filters remove_duplicates)
      = [ReadParquet path (option_map (PyStr.split ";") columns)
                     (option_map (map Tuple) filters)])
  /\
  (In (PyStr.lower m) family_B ->
   forall r,
   let path := MAIN_URL ++ "/" ++ PyStr.lower m ++ "/" ++ d ++ "_MSC_"
                 ++ PyStr.upper m ++ "-" ++ r ++ "_" ++ PyStr.upper v
                 ++ ".geoparquet" in
   resolve_path (Some m) (Some v) (Some d) (Some r) = Return path
   /\ trace_of (get_spectra_geoparquet read_parquet from_wkb (Some m)
                  (Some v) (Some d) (Some r) columns filters
                  remove_duplicates)
      = [ReadParquet path (option_map (PyStr.split ";") columns)
                     (option_map (map Tuple) filters)]).
Proof.
  split.
  - intros H region path.
    assert (Hp : resolve_path (Some m) (Some v) (Some d) region
                 = Return path)
      by (apply family_A_path; [exact H | reflexivity]).
    split; [exact Hp|]. now apply run_trace.
  - intros H r path.
    assert (Hp : resolve_path (Some m) (Some v) (Some d) (Some r)
                 = Return path)
      by (apply (family_B_path m (Some v) (Some d) (Some r));
          [exact H | reflexivity]).
    split; [exact Hp|]. now apply run_trace.
Qed.

Lemma resolved_path_examples :
  resolve_path (Some "GEWPS") (Some "EFTH") (Some "2025031500") None
  = Return "https://goc-dx.science.gc.ca/~swav000/geoparquet/gewps/2025031500_MSC_GEWPS_EFTH.geoparquet"
  /\ resolve_path (Some "Rdwps") (Some "efth") (Some "2025031500")
       (Some "lake-erie")
     = Return "https://goc-dx.science.gc.ca/~swav000/geoparquet/rdwps/2025031500_MSC_RDWPS-lake-erie_EFTH.geoparquet".
Proof.
  split.
  - refine (proj1 (proj1 (resolved_path_follows_pattern
                            (reader_of plain_table) wkb_point_le
                            "GEWPS" "EFTH" "2025031500" None None None)
                     _ None)).
    simpl. auto.
  - refine (proj1 (proj2 (resolved_path_follows_pattern
                            (reader_of plain_table) wkb_point_le
                            "Rdwps" "efth" "2025031500" None None None)
                     _ "lake-erie")).
    simpl. auto.
Defined.

(** C3. A model identifier whose lowercase form is in neither family makes
    [get_spectra_geoparquet] raise ValueError "Invalid model ..." whatever
    the other arguments are: no path comes out of the resolution, and the
    reader is not called (no event at all is emitted). *)
Theorem unknown_model_rejected_first
    (read_parquet : reader) (from_wkb : decoder) (m : string)
    (variable date region columns : option string)
    (filters : option (list (list jval))) (remove_duplicates : option bool) :
  ~ In (PyStr.lower m) family_A ->
  ~ In (PyStr.lower m) family_B ->
  resolve_path (Some m) variable date region
  = Raise (ValueError, "Invalid model " ++ m)
  /\ get_spectra_geoparquet read_parquet from_wkb (Some m) variable date
       region columns filters remove_duplicates
     = ([], Raise (ValueError, "Invalid model " ++ m)).
Proof.
  intros HA HB.
  pose proof (unknown_model_path m variable date region HA HB) as Hp.
  split; [exact Hp|]. now apply run_no_path.
Qed.

Lemma unknown_model_example :
  get_spectra_geoparquet (reader_of stations) wkb_point_le (Some "WW3") None
    (Some "2025031500") None (Some "a;b") None (Some true)
  = ([], Raise (ValueError, "Invalid model WW3")).
Proof.
  refine (proj2 (unknown_model_rejected_first (reader_of stations)
                   wkb_point_le "WW3" None (Some "2025031500") None
                   (Some "a;b") None (Some true) _ _)).
  - simpl. intros [H | [H | []]]; discriminate H.
  - simpl. intros [H | [H | []]]; discriminate H.
Defined.

(** ** Load failures *)

(** C4. A failure of the table load is never suppressed: the operation
    ends with an exception whose message contains the original message;
    FileNotFoundError is re-raised as FileNotFoundError "File not found:
    ...", EmptyDataError as EmptyDataError "Empty data: ...", and a
    failure of any other class as Exception "An unexpected error
    occurred: ...". *)
Theorem load_failure_is_rewrapped
    (read_parquet : reader) (from_wkb : decoder)
    (model variable date region columns : option string)
    (filters : option (list (list jval))) (remove_duplicates : option bool)
    (path : string) (c : exn_class) (msg : string) :
  resolve_path model variable date region = Return path ->
  read_parquet path (option_map (PyStr.split ";") columns)
    (option_map (map Tuple) filters) = Raise (c, msg) ->
  exists e,
    outcome_of (get_spectra_geoparquet read_parquet from_wkb model variable
                  date region columns filters remove_duplicates)
    = Raise e
    /\ PyStr.contains (snd e) msg
    /\ (c = FileNotFoundError ->
        e = (FileNotFoundError, "File not found: " ++ msg))
    /\ (c = EmptyDataError -> e = (EmptyDataError, "Empty data: " ++ msg))
    /\ (c <> FileNotFoundError -> c <> EmptyDataError ->
        e = (Exception_, "An unexpected error occurred: " ++ msg)).
Proof.
  intros Hp Hr.
  rewrite (run_load_failed read_parquet from_wkb model variable date region
             columns filters remove_duplicates path c msg Hp Hr).
  unfold outcome_of.
  destruct c; cbn [issubclass exn_class_eqb snd];
    (eexists; split; [reflexivity|]);
    (split; [apply contains_suffix|]);
    repeat split; intros; try reflexivity; try discriminate; congruence.
Qed.

Lemma load_failure_example :
  exists e,
    outcome_of (get_spectra_geoparquet
                  (failing_reader (FileNotFoundError, "no such file"))
                  wkb_point_le (Some "gdwps") (Some "efth")
                  (Some "2025031500") None None None None)
    = Raise e
    /\ PyStr.contains (snd e) "no such file"
    /\ (FileNotFoundError = FileNotFoundError ->
        e = (FileNotFoundError, "File not found: " ++ "no such file"))
    /\ (FileNotFoundError = EmptyDataError ->
        e = (EmptyDataError, "Empty data: " ++ "no such file"))
    /\ (FileNotFoundError <> FileNotFoundError ->
        FileNotFoundError <> EmptyDataError ->
        e = (Exception_, "An unexpected error occurred: " ++ "no such file")).
Proof.
  apply (load_failure_is_rewrapped
           (failing_reader (FileNotFoundError, "no such file")) wkb_point_le
           (Some "gdwps") (Some "efth") (Some "2025031500") None None None
           None
           "https://goc-dx.science.gc.ca/~swav000/geoparquet/gdwps/2025031500_MSC_GDWPS_EFTH.geoparquet").
  - reflexivity.
  - reflexivity.
Defined.

(** ** Projection and filters *)

(** C8. A columns string, when given, reaches the reader split on ";"
    (the pieces, in order, hold no ";" and joined by ";" give the string
    back); a filters list, when given, reaches it with every clause
    turned into a tuple of the same items in the same order; each is
    handled whether or not the other is given, and [None] is passed for
    the one that is absent. The reader is called once with both, and what
    follows the load depends on the loaded table and on
    [remove_duplicates] only. *)
Theorem projection_and_filters_reach_reader
    (read_parquet : reader) (from_wkb : decoder)
    (model variable date region cols : option string)
    (filters : option (list (list jval)))
    (remove_duplicates : option bool) (path : string) :
  resolve_path model variable date region = Return path ->
  let sent_columns := option_map (PyStr.split ";") cols in
  let sent_filters := option_map (map Tuple) filters in
  trace_of (get_spectra_geoparquet read_parquet from_wkb model variable
              date region cols filters remove_duplicates)
  = [ReadParquet path sent_columns sent_filters]
  /\ (forall names_text,
        cols = Some names_text ->
        sent_columns = Some (PyStr.split ";" names_text)
        /\ PyStr.join ";" (PyStr.split ";" names_text) = names_text
        /\ Forall (fun name => PyStr.has_char ";" name = false)
                  (PyStr.split ";" names_text))
  /\ (cols = None -> sent_columns = None)
  /\ (forall clauses,
        filters = Some clauses ->
        sent_filters = Some (map Tuple clauses)
        /\ map tuple_items (map Tuple clauses) = clauses)
  /\ (filters = None -> sent_filters = None)
  /\ (forall df,
        read_parquet path sent_columns sent_filters = Return df ->
        outcome_of (get_spectra_geoparquet read_parquet from_wkb model
                      variable date region cols filters remove_duplicates)
        = transform from_wkb remove_duplicates df).
Proof.
  intros Hp sent_columns sent_filters.
  split; [now apply run_trace|].
  split.
  { intros names_text ->. split; [reflexivity|].
    split; [apply join_split | apply split_pieces_clean]. }
  split; [intros ->; reflexivity|].
  split.
  { intros clauses ->. split; [reflexivity | apply map_tuple_items]. }
  split; [intros ->; reflexivity|].
  intros df Hr.
  now rewrite (run_loaded read_parquet from_wkb model variable date region
                 cols filters remove_duplicates path df Hp Hr).
Qed.

Lemma projection_and_filters_example :
  trace_of (get_spectra_geoparquet (reader_of plain_table) wkb_point_le
              (Some "GEWPS") (Some "EFTH") (Some "2025031500") None
              (Some "station_name;member")
              (Some [ [JStr "station_name"; JStr "=="; JStr "00N000E"];
                      [JStr "member"; JStr "=="; JInt 0] ])
              None)
  = [ReadParquet
       "https://goc-dx.science.gc.ca/~swav000/geoparquet/gewps/2025031500_MSC_GEWPS_EFTH.geoparquet"
       (Some ["station_name"; "member"])
       (Some [ Tuple [JStr "station_name"; JStr "=="; JStr "00N000E"];
               Tuple [JStr "member"; JStr "=="; JInt 0] ])]
  /\ trace_of (get_spectra_geoparquet (reader_of plain_table) wkb_point_le
                 (Some "GEWPS") (Some "EFTH") (Some "2025031500") None
                 (Some "station_name;member") None None)
     = [ReadParquet
          "https://goc-dx.science.gc.ca/~swav000/geoparquet/gewps/2025031500_MSC_GEWPS_EFTH.geoparquet"
          (Some ["station_name"; "member"]) None]
  /\ trace_of (get_spectra_geoparquet (reader_of plain_table) wkb_point_le
                 (Some "GEWPS") (Some "EFTH") (Some "2025031500") None
                 None (Some [ [JStr "member"; JStr "=="; JInt 0] ]) None)
     = [ReadParquet
          "https://goc-dx.science.gc.ca/~swav000/geoparquet/gewps/2025031500_MSC_GEWPS_EFTH.geoparquet"
          None (Some [ Tuple [JStr "member"; JStr "=="; JInt 0] ])].
Proof.
  split; [|split].
  - refine (proj1 (projection_and_filters_reach_reader
                     (reader_of plain_table) wkb_point_le (Some "GEWPS")
                     (Some "EFTH") (Some "2025031500") None
                     (Some "station_name;member")
                     (Some [ [JStr "station_name"; JStr "=="; JStr "00N000E"];
                             [JStr "member"; JStr "=="; JInt 0] ])
                     None _ _)).
    reflexivity.
  - refine (proj1 (projection_and_filters_reach_reader
                     (reader_of plain_table) wkb_point_le (Some "GEWPS")
                     (Some "EFTH") (Some "2025031500") None
                     (Some "station_name;member") None None _ _)).
    reflexivity.
  - refine (proj1 (projection_and_filters_reach_reader
                     (reader_of plain_table) wkb_point_le (Some "GEWPS")
                     (Some "EFTH") (Some "2025031500") None None
                     (Some [ [JStr "member"; JStr "=="; JInt 0] ]) None
                     _ _)).
    reflexivity.
Defined.

(** When [columns] or [filters] is not given the reader receives [None]
    in its place. *)
Lemma absent_projection_is_none
    (read_parquet : reader) (from_wkb : decoder)
    (model variable date region : option string)
    (remove_duplicates : option bool) (path : string) :
  resolve_path model variable date region = Return path ->
  trace_of (get_spectra_geoparquet read_parquet from_wkb model variable
              date region None None remove_duplicates)
  = [ReadParquet path None None].
Proof. intros Hp. now apply run_trace. Qed.

(** ** A family-B model without a region *)

(** C10. For a family-B model (rdwps or rewps), a direct call with
    [region = None] passes path resolution: the path carries the text
    "None" where the region goes, and the reader is called with it. *)
Theorem missing_region_is_formatted_as_None
    (read_parquet : reader) (from_wkb : decoder)
    (m v d : string) (columns : option string)
    (filters : option (list (list jval))) (remove_duplicates : option bool) :
  In (PyStr.lower m) family_B ->
  let path := MAIN_URL ++ "/" ++ PyStr.lower m ++ "/" ++ d ++ "_MSC_"
                ++ PyStr.upper m ++ "-" ++ "None" ++ "_" ++ PyStr.upper v
                ++ ".geoparquet" in
  resolve_path (Some m) (Some v) (Some d) None = Return path
  /\ trace_of (get_spectra_geoparquet read_parquet from_wkb (Some m)
                 (Some v) (Some d) None columns filters remove_duplicates)
     = [ReadParquet path (option_map (PyStr.split ";") columns)
                    (option_map (map Tuple) filters)].
Proof.
  intros H path.
  assert (Hp : resolve_path (Some m) (Some v) (Some d) None = Return path)
    by (apply (family_B_path m (Some v) (Some d) None);
        [exact H | reflexivity]).
  split; [exact Hp|]. now apply run_trace.
Qed.

Lemma missing_region_example :
  resolve_path (Some "REWPS") (Some "efth") (Some "2025031500") None
  = Return "https://goc-dx.science.gc.ca/~swav000/geoparquet/rewps/2025031500_MSC_REWPS-None_EFTH.geoparquet".
Proof.
  refine (proj1 (missing_region_is_formatted_as_None
                   (reader_of plain_table) wkb_point_le
                   "REWPS" "efth" "2025031500" None None None _)).
  simpl. auto.
Defined.

(** ** The host adapter *)

Lemma required_params_family_A (m : string) :
  In (PyStr.lower m) family_A ->
  required_params (Some m) = Return ["model"; "variable"; "date"].
Proof.
  intros H. unfold required_params. simpl.
  destruct H as [<- | [<- | []]]; reflexivity.
Qed.

Lemma required_params_family_B (m : string) :
  In (PyStr.lower m) family_B ->
  required_params (Some m)
  = Return ["model"; "variable"; "date"; "region"].
Proof.
  intros H. unfold required_params. simpl.
  destruct H as [<- | [<- | []]]; reflexivity.
Qed.

Lemma required_params_unknown (m : string) :
  ~ In (PyStr.lower m) family_A ->
  ~ In (PyStr.lower m) family_B ->
  required_params (Some m) = Raise (ValueError, "Invalid model " ++ m).
Proof.
  intros HA HB. unfold required_params, str_method, obind, fmt.
  rewrite (in_tuple_not_In (PyStr.lower m) ["gdwps"; "gewps"]).
  - now rewrite (in_tuple_not_In (PyStr.lower m) ["rdwps"; "rewps"] HB).
  - intros [H | [H | []]]; apply HA; simpl; auto.
Qed.

Lemma execute_with_missing (op : operation) (data : payload)
    (required : list string) :
  required_params (p_model data) = Return required ->
  forallb (has_key data) required = false ->
  execute_with op data
  = ([LogError "Missing required parameters."],
     Raise (ProcessorExecuteError, "Missing required parameters.")).
Proof.
  intros Hr Hf. unfold execute_with. rewrite Hr. simpl. rewrite Hf.
  reflexivity.
Qed.

Lemma execute_with_failure (op : operation) (data : payload)
    (required : list string) (t : list event) (c : exn_class)
    (msg : string) :
  required_params (p_model data) = Return required ->
  forallb (has_key data) required = true ->
  call_operation op data = (t, Raise (c, msg)) ->
  execute_with op data
  = if issubclass c ValueError
    then ((t ++ [LogError ("Process execution error: " ++ msg)])%list,
          Raise (ProcessorExecuteError,
                 "Process execution error: " ++ msg))
    else (t, Raise (c, msg)).
Proof.
  intros Hr Hf Hop. unfold execute_with. rewrite Hr.
  unfold lift, bind at 1. rewrite Hf. cbn [negb app].
  unfold call_operation in Hop. rewrite Hop.
  unfold try_except. cbn [fst snd find_clause].
  destruct (issubclass c ValueError); reflexivity.
Qed.

Lemma execute_with_success (op : operation) (data : payload)
    (required : list string) (t : list event) (out : output) :
  required_params (p_model data) = Return required ->
  forallb (has_key data) required = true ->
  call_operation op data = (t, Return out) ->
  execute_with op data = (t, Return ("application/json", out)).
Proof.
  intros Hr Hf Hop. unfold execute_with. rewrite Hr.
  unfold lift, bind at 1. rewrite Hf. cbn [negb app].
  unfold call_operation in Hop. rewrite Hop.
  unfold try_except, bind, ret. now rewrite app_nil_r.
Qed.

(** C5. When the model of the payload is in a family and a parameter
    required for that family (A: model, variable, date; B: model,
    variable, date, region) is not in the payload, [execute] logs and
    raises ProcessorExecuteError "Missing required parameters."; the
    result is the same whatever the operation is, so the operation is not
    called (and the reader is not, either). *)
Theorem missing_parameter_stops_execute
    (data : payload) (m : string) (required : list string) :
  p_model data = Some m ->
  (In (PyStr.lower m) family_A /\ required = ["model"; "variable"; "date"])
  \/ (In (PyStr.lower m) family_B
      /\ required = ["model"; "variable"; "date"; "region"]) ->
  (exists param, In param required /\ has_key data param = false) ->
  (forall op : operation,
     execute_with op data
     = ([LogError "Missing required parameters."],
        Raise (ProcessorExecuteError, "Missing required parameters.")))
  /\ (forall read_parquet from_wkb,
        execute read_parquet from_wkb data
        = ([LogError "Missing required parameters."],
           Raise (ProcessorExecuteError, "Missing required parameters."))).
Proof.
  intros Hm Hfam [param [Hin Hkey]].
  assert (Hreq : required_params (p_model data) = Return required).
  { rewrite Hm. destruct Hfam as [[H ->] | [H ->]].
    - now apply required_params_family_A.
    - now apply required_params_family_B. }
  assert (Hf : forallb (has_key data) required = false).
  { destruct (forallb (has_key data) required) eqn:E; [|reflexivity].
    rewrite forallb_forall in E. specialize (E param Hin). congruence. }
  split.
  - intros op. now apply (execute_with_missing op data required).
  - intros rd dec. unfold execute.
    now apply (execute_with_missing _ data required).
Qed.

Lemma missing_date_example :
  execute (reader_of plain_table) wkb_point_le
    (mkPayload (Some "GEWPS") (Some "EFTH") None None None None None)
  = ([LogError "Missing required parameters."],
     Raise (ProcessorExecuteError, "Missing required parameters.")).
Proof.
  refine (proj2 (missing_parameter_stops_execute
                   (mkPayload (Some "GEWPS") (Some "EFTH") None None None
                              None None)
                   "GEWPS" ["model"; "variable"; "date"] _ _ _)
                (reader_of plain_table) wkb_point_le).
  - reflexivity.
  - left. split; [simpl; auto | reflexivity].
  - exists "date". split; [simpl; auto | reflexivity].
Defined.

(** A payload without "model" does not reach the check of the required
    parameters: [model.lower()] fails on [None]. *)
Lemma execute_without_model (op : operation) (data : payload) :
  p_model data = None ->
  execute_with op data
  = ([], Raise (AttributeError,
                "'NoneType' object has no attribute 'lower'")).
Proof. intros H. unfold execute_with. rewrite H. reflexivity. Qed.

(** C6, as the code has it. When the operation called from [execute]
    raises a ValueError or an instance of a subclass of it, which the
    empty-data error is, [execute] logs and raises ProcessorExecuteError
    "Process execution error: " followed by the original message; a
    failure of any other class (not found, generic load failure, ...)
    leaves [execute] unchanged. *)
Theorem operation_failure_in_execute
    (read_parquet : reader) (from_wkb : decoder) (data : payload)
    (required : list string) (t : list event) (c : exn_class)
    (msg : string) :
  required_params (p_model data) = Return required ->
  forallb (has_key data) required = true ->
  get_spectra_geoparquet read_parquet from_wkb (p_model data)
    (p_variable data) (p_date data) (p_region data) (p_columns data)
    (p_filters data) (p_remove_duplicates data) = (t, Raise (c, msg)) ->
  (c = ValueError \/ c = EmptyDataError ->
   execute read_parquet from_wkb data
   = ((t ++ [LogError ("Process execution error: " ++ msg)])%list,
      Raise (ProcessorExecuteError, "Process execution error: " ++ msg)))
  /\ (c <> ValueError -> c <> EmptyDataError ->
      execute read_parquet from_wkb data = (t, Raise (c, msg))).
Proof.
  intros Hr Hf Hop. unfold execute.
  rewrite (execute_with_failure _ data required t c msg Hr Hf Hop).
  split.
  - intros [-> | ->]; reflexivity.
  - intros H1 H2. destruct c; try reflexivity; congruence.
Qed.

Lemma not_found_passes_execute :
  execute (failing_reader (FileNotFoundError, "no such file")) wkb_point_le
    example_inputs
  = ([ReadParquet
        "https://goc-dx.science.gc.ca/~swav000/geoparquet/gewps/2025031500_MSC_GEWPS_EFTH.geoparquet"
        (Some ["station_name"; "member"])
        (Some [ Tuple [JStr "station_name"; JStr "=="; JStr "00N000E"];
                Tuple [JStr "member"; JStr "=="; JInt 0] ])],
     Raise (FileNotFoundError, "File not found: no such file")).
Proof.
  refine (proj2 (operation_failure_in_execute
                   (failing_reader (FileNotFoundError, "no such file"))
                   wkb_point_le example_inputs
                   ["model"; "variable"; "date"] _ FileNotFoundError
                   "File not found: no such file" _ _ _) _ _).
  - reflexivity.
  - reflexivity.
  - reflexivity.
  - discriminate.
  - discriminate.
Defined.

(** The empty-data error raised by the operation does not leave
    [execute] unchanged: it is a ValueError, and is translated. *)
Lemma empty_data_is_translated :
  outcome_of (get_spectra_geoparquet
                (failing_reader (EmptyDataError, "No columns"))
                wkb_point_le (Some "GEWPS") (Some "EFTH")
                (Some "2025031500") None (Some "station_name;member")
                (p_filters example_inputs) None)
  = Raise (EmptyDataError, "Empty data: No columns")
  /\ outcome_of (execute (failing_reader (EmptyDataError, "No columns"))
                   wkb_point_le example_inputs)
     = Raise (ProcessorExecuteError,
              "Process execution error: Empty data: No columns")
  /\ outcome_of (execute (failing_reader (EmptyDataError, "No columns"))
                   wkb_point_le example_inputs)
     <> Raise (EmptyDataError, "Empty data: No columns").
Proof.
  split; [reflexivity|]. split; [reflexivity|]. discriminate.
Qed.

(** A ValueError does come out of the operation inside [execute]: on a
    loaded table with columns "index" and "level_0", [reset_index] cannot
    insert the old labels. *)
Lemma reset_index_failure_is_translated :
  outcome_of (get_spectra_geoparquet (reader_of table_with_level_0)
                wkb_point_le (Some "GEWPS") (Some "EFTH")
                (Some "2025031500") None (Some "station_name;member")
                (p_filters example_inputs) None)
  = Raise (ValueError, "cannot insert level_0, already exists")
  /\ outcome_of (execute (reader_of table_with_level_0) wkb_point_le
                   example_inputs)
     = Raise (ProcessorExecuteError,
              "Process execution error: cannot insert level_0, already exists").
Proof. split; reflexivity. Qed.

(** C9. A payload whose model is a string of neither family makes
    [execute] raise ValueError "Invalid model ..." from its own check:
    the result does not depend on the operation, nothing is logged, and
    the class is ValueError, not ProcessorExecuteError. The same
    ValueError raised by the operation, once the payload has passed the
    checks, is logged and translated. *)
Theorem unknown_model_escapes_execute (data : payload) (m : string) :
  p_model data = Some m ->
  ~ In (PyStr.lower m) family_A ->
  ~ In (PyStr.lower m) family_B ->
  (forall op : operation,
     execute_with op data = ([], Raise (ValueError, "Invalid model " ++ m)))
  /\ (forall read_parquet from_wkb,
        execute read_parquet from_wkb data
        = ([], Raise (ValueError, "Invalid model " ++ m)))
  /\ (forall (op : operation) (accepted : payload) required t,
        required_params (p_model accepted) = Return required ->
        forallb (has_key accepted) required = true ->
        call_operation op accepted
        = (t, Raise (ValueError, "Invalid model " ++ m)) ->
        execute_with op accepted
        = ((t ++ [LogError ("Process execution error: "
                            ++ "Invalid model " ++ m)])%list,
           Raise (ProcessorExecuteError,
                  "Process execution error: " ++ "Invalid model " ++ m))).
Proof.
  intros Hm HA HB.
  assert (Hreq : required_params (p_model data)
                 = Raise (ValueError, "Invalid model " ++ m))
    by (rewrite Hm; now apply required_params_unknown).
  assert (Hown : forall op : operation,
            execute_with op data
            = ([], Raise (ValueError, "Invalid model " ++ m)))
    by (intros op; unfold execute_with; rewrite Hreq; reflexivity).
  split; [exact Hown|]. split.
  - intros rd dec. apply Hown.
  - intros op accepted required t Hr Hf Hop.
    now rewrite (execute_with_failure op accepted required t ValueError _
                   Hr Hf Hop).
Qed.

Lemma unknown_model_in_execute_example :
  execute (reader_of plain_table) wkb_point_le
    (mkPayload (Some "WW3") None None None None None None)
  = ([], Raise (ValueError, "Invalid model WW3")).
Proof.
  refine (proj1 (proj2 (unknown_model_escapes_execute
                          (mkPayload (Some "WW3") None None None None None
                                     None)
                          "WW3" _ _ _))
                (reader_of plain_table) wkb_point_le).
  - reflexivity.
  - simpl. intros [H | [H | []]]; discriminate H.
  - simpl. intros [H | [H | []]]; discriminate H.
Defined.

(** ** After the load: tables without a geometry column *)

Lemma combine_fst_same {A B} (l : list A) (vs : list B) :
  length l = length vs -> map fst (combine l vs) = l.
Proof.
  revert vs. induction l as [|a l IH]; intros [|v vs] H; simpl in *;
    try reflexivity; try discriminate.
  injection H as H. now rewrite IH.
Qed.

Lemma assoc_In {A} (name : string) (l : list (string * A)) (v : A) :
  assoc name l = Some v -> In (name, v) l.
Proof.
  induction l as [|[k w] l IH]; simpl; [discriminate|].
  destruct (String.eqb name k) eqn:E.
  - intros H. injection H as ->. apply String.eqb_eq in E. subst. now left.
  - intros H. right. now apply IH.
Qed.

Lemma column_length {A} (df : DataFrame A) (name : string) (vs : list A) :
  frame_ok df -> get_column name df = Some vs -> length vs = nrows df.
Proof.
  intros [_ Hl] H. apply assoc_In in H.
  rewrite Forall_forall in Hl. apply (Hl _ H).
Qed.

Lemma kept_table_facts (remove_duplicates : option bool)
    (df : DataFrame cell) :
  let kept := if truthy remove_duplicates then drop_duplicates df else df in
  (frame_ok df -> frame_ok kept)
  /\ names kept = names df
  /\ nrows kept <= nrows df
  /\ (index_name df = None -> index_name kept = None)
  /\ (truthy remove_duplicates = false -> kept = df).
Proof.
  destruct (truthy remove_duplicates); simpl.
  - split; [apply frame_ok_drop_duplicates|].
    split; [apply names_drop_duplicates|].
    split; [apply nrows_drop_duplicates|].
    split; [apply index_name_drop_duplicates | discriminate].
  - split; [auto|]. split; [reflexivity|]. split; [lia|].
    split; [auto | reflexivity].
Qed.

Lemma has_column_same_names {A B} (name : string) (d1 : DataFrame A)
    (d2 : DataFrame B) :
  names d1 = names d2 -> has_column name d1 = has_column name d2.
Proof. intros H. unfold has_column. now rewrite H. Qed.

Lemma names_frame_map {A B} (f : A -> B) (df : DataFrame A) :
  names (frame_map f df) = names df.
Proof. unfold names, frame_map. simpl. apply names_map. Qed.

Lemma get_column_frame_map {A B} (f : A -> B) (name : string)
    (df : DataFrame A) :
  get_column name (frame_map f df) = option_map (map f) (get_column name df).
Proof. unfold get_column, frame_map. simpl. apply assoc_map. Qed.

Lemma to_dict_lookup (df : DataFrame value) (c : string) :
  NoDup (names df) ->
  dict_get String.eqb c (to_dict df)
  = option_map (fun vs => dict_of key_eqb (combine (index df) vs))
      (get_column c df).
Proof.
  intros H. rewrite to_dict_distinct by exact H.
  rewrite dict_get_assoc.
  apply (assoc_map (fun vs => dict_of key_eqb (combine (index df) vs))).
Qed.

Lemma to_dict_keys (df : DataFrame value) :
  NoDup (names df) -> map fst (to_dict df) = names df.
Proof.
  intros H. rewrite to_dict_distinct by exact H.
  apply (names_map (fun vs => dict_of key_eqb (combine (index df) vs))).
Qed.

Lemma kept_labels_give_all_cells (remove_duplicates : option bool)
    (df : DataFrame cell) (c : string) (vs : list cell) :
  frame_ok df ->
  truthy remove_duplicates = true
  \/ distinct_keys key_eqb [] (index df) = true ->
  get_column c (if truthy remove_duplicates then drop_duplicates df else df)
  = Some vs ->
  dict_of key_eqb
    (combine
       (index (if truthy remove_duplicates then drop_duplicates df else df))
       (map VCell vs))
  = combine
      (index (if truthy remove_duplicates then drop_duplicates df else df))
      (map VCell vs).
Proof.
  intros Hok Hlabels Hc. destruct (truthy remove_duplicates).
  - pose proof (column_length _ c vs (frame_ok_drop_duplicates df Hok) Hc)
      as Hlen.
    assert (Hidx : index (drop_duplicates df) = range_index (length vs)).
    { rewrite Hlen. unfold drop_duplicates in *.
      destruct (frame_empty df) eqn:He.
      - unfold frame_empty in He. apply orb_true_iff in He.
        destruct He as [He | He].
        + apply Nat.eqb_eq in He. unfold nrows in *. rewrite He.
          now destruct (index df).
        + apply Nat.eqb_eq in He. unfold get_column in Hc.
          destruct (columns df); [discriminate Hc | discriminate He].
      - unfold nrows. cbn [index]. unfold range_index.
        now rewrite length_map, length_seq. }
    rewrite Hidx. apply dict_of_range.
  - destruct Hlabels as [H | Hkeys]; [discriminate H|].
    apply dict_of_distinct.
    rewrite combine_fst_same; [exact Hkeys|].
    rewrite length_map. symmetry. now apply (column_length df c vs).
Qed.

(** C7, as the code has it. Let the loaded table have distinct column
    names, no column named "geometry", and row labels that are pairwise
    distinct, unless deduplication is requested. Then the output has the
    columns of the loaded table, in the same order and no others, and
    under each of them one entry per row, holding the cell of that row
    keyed by its row label; the rows are those of the loaded table, or
    those [drop_duplicates] leaves, relabelled, when that was asked
    for. *)
Theorem table_without_geometry_is_kept
    (read_parquet : reader) (from_wkb : decoder)
    (model variable date region cols : option string)
    (filters : option (list (list jval))) (remove_duplicates : option bool)
    (path : string) (df : DataFrame cell) :
  resolve_path model variable date region = Return path ->
  read_parquet path (option_map (PyStr.split ";") cols)
    (option_map (map Tuple) filters) = Return df ->
  frame_ok df ->
  has_column "geometry" df = false ->
  truthy remove_duplicates = true
  \/ distinct_keys key_eqb [] (index df) = true ->
  let kept := if truthy remove_duplicates then drop_duplicates df else df in
  exists out,
    outcome_of (get_spectra_geoparquet read_parquet from_wkb model variable
                  date region cols filters remove_duplicates)
    = Return out
    /\ map fst out = names kept
    /\ names kept = names df
    /\ (forall c,
          dict_get String.eqb c out
          = option_map
              (fun vs => combine (index kept) (map VCell vs))
              (get_column c kept))
    /\ (forall c vs, get_column c kept = Some vs -> length vs = nrows kept)
    /\ nrows kept <= nrows df
    /\ (truthy remove_duplicates = false -> kept = df).
Proof.
  intros Hp Hr Hok Hgeo Hlabels kept.
  destruct (kept_table_facts remove_duplicates df)
    as [Hok' [Hnames [Hrows [_ Hsame]]]].
  fold kept in Hok', Hnames, Hrows, Hsame. specialize (Hok' Hok).
  assert (Hnone : get_column "geometry" kept = None).
  { apply get_column_none.
    now rewrite (has_column_same_names "geometry" kept df Hnames). }
  assert (Hnd : NoDup (names (frame_map VCell kept)))
    by (rewrite names_frame_map; apply Hok').
  exists (to_dict (frame_map VCell kept)).
  split.
  { rewrite (run_loaded read_parquet from_wkb model variable date region
               cols filters remove_duplicates path df Hp Hr).
    unfold outcome_of, transform. simpl. fold kept. now rewrite Hnone. }
  split; [rewrite to_dict_keys by exact Hnd; apply names_frame_map|].
  split; [exact Hnames|].
  split.
  { intros c. rewrite to_dict_lookup by exact Hnd.
    rewrite get_column_frame_map.
    destruct (get_column c kept) as [vs|] eqn:Hc; [|reflexivity].
    simpl. f_equal.
    apply (kept_labels_give_all_cells remove_duplicates df c vs Hok Hlabels).
    exact Hc. }
  split; [intros c vs Hc; now apply (column_length kept c vs)|].
  split; [exact Hrows | exact Hsame].
Qed.

Ltac frame_ok_by_computation :=
  split;
  [ repeat (constructor;
            [ simpl; intuition discriminate | ])
  ; constructor
  | repeat (constructor; [ reflexivity | ]); constructor ].

Lemma plain_table_ok : frame_ok plain_table.
Proof. frame_ok_by_computation. Qed.

Lemma plain_table_example :
  exists out,
    outcome_of (get_spectra_geoparquet (reader_of plain_table) wkb_point_le
                  (Some "GEWPS") (Some "EFTH") (Some "2025031500") None
                  None None None)
    = Return out
    /\ map fst out = ["station_name"; "member"]
    /\ dict_get String.eqb "member" out
       = Some [(CInt 10, VCell (CInt 0)); (CInt 20, VCell (CInt 1))].
Proof.
  destruct (table_without_geometry_is_kept (reader_of plain_table)
              wkb_point_le (Some "GEWPS") (Some "EFTH") (Some "2025031500")
              None None None None
              "https://goc-dx.science.gc.ca/~swav000/geoparquet/gewps/2025031500_MSC_GEWPS_EFTH.geoparquet"
              plain_table eq_refl eq_refl plain_table_ok eq_refl
              (or_intror eq_refl))
    as [out [Hout [Hkeys [_ [Hcells _]]]]].
  exists out. split; [exact Hout|]. split; [exact Hkeys|].
  exact (Hcells "member").
Defined.

(** Two rows with the same label: the nested mapping has one entry for
    them, the cell of the later row, and the cell of the earlier row is
    not in the output. *)
Lemma repeated_row_labels_lose_cells :
  frame_ok table_repeated_labels
  /\ has_column "geometry" table_repeated_labels = false
  /\ get_column "member" table_repeated_labels = Some [CInt 1; CInt 2]
  /\ outcome_of (get_spectra_geoparquet (reader_of table_repeated_labels)
                   wkb_point_le (Some "GEWPS") (Some "EFTH")
                   (Some "2025031500") None None None None)
     = Return [("member", [(CInt 0, VCell (CInt 2))])]
  /\ outcome_of (get_spectra_geoparquet (reader_of table_repeated_labels)
                   wkb_point_le (Some "GEWPS") (Some "EFTH")
                   (Some "2025031500") None None None None)
     <> Return [("member", [(CInt 0, VCell (CInt 1));
                            (CInt 0, VCell (CInt 2))])].
Proof.
  split; [frame_ok_by_computation|].
  split; [reflexivity|]. split; [reflexivity|].
  split; [reflexivity | discriminate].
Qed.

(** ** After the load: the geometry column *)

Lemma decode_all (from_wkb : decoder) (gs : list cell) :
  Forall (fun g => exists x y, from_wkb g = Return (Point x y)) gs ->
  exists coords,
    Forall2 (fun g xy => from_wkb g = Return (Point (fst xy) (snd xy)))
            gs coords
    /\ series_map from_wkb gs = Return (map point_of coords).
Proof.
  induction 1 as [|g gs [x [y Hg]] _ [coords [HF Hs]]].
  - exists []. split; [constructor | reflexivity].
  - exists ((x, y) :: coords). split.
    + constructor; [exact Hg | exact HF].
    + simpl. rewrite Hg. simpl. rewrite Hs. reflexivity.
Qed.

Lemma records_all (coords : list (float * float)) :
  series_map point_record (map point_of coords)
  = Return (map record_of coords).
Proof.
  induction coords as [|[x y] coords IH]; [reflexivity|].
  simpl. rewrite IH. reflexivity.
Qed.

Lemma existsb_filter_false {A} (p q : A -> bool) (l : list A) :
  existsb p l = false -> existsb p (filter q l) = false.
Proof.
  induction l as [|a l IH]; simpl; [reflexivity|].
  intros H. apply orb_false_iff in H. destruct H as [H1 H2].
  destruct (q a); simpl; [rewrite H1|]; auto.
Qed.

Lemma convert_geometry_result (from_wkb : decoder) (df : DataFrame cell)
    (gs : list cell) (coords : list (float * float)) :
  index_name df = None ->
  has_column "index" df = false ->
  has_column "point" df = false ->
  has_column "geometry" df = true ->
  series_map from_wkb gs = Return (map point_of coords) ->
  convert_geometry from_wkb gs df
  = Return (mkFrame None (range_index (nrows df))
              (remove_named "geometry" (columns (frame_map VCell df))
               ++ [("point", map record_of coords)])%list).
Proof.
  intros Hname Hindex Hpoint Hgeo Hdec.
  unfold convert_geometry, drop_column at 1.
  rewrite (has_column_same_names "geometry" (frame_map VCell df) df
             (names_frame_map VCell df)), Hgeo.
  cbn [obind]. rewrite Hdec. cbn [obind]. rewrite records_all. cbn [obind].
  set (rest := remove_named "geometry" (columns (frame_map VCell df))).
  assert (Hrest : forall name,
            has_column name df = false ->
            existsb (String.eqb name) (map fst rest) = false).
  { intros name H. unfold rest. rewrite names_remove_named.
    apply existsb_filter_false.
    change (has_column name (frame_map VCell df) = false).
    now rewrite (has_column_same_names name (frame_map VCell df) df
                   (names_frame_map VCell df)). }
  unfold set_column, has_column, names. cbn [columns index index_name].
  rewrite (Hrest "point" Hpoint).
  unfold reset_index, has_column, names. cbn [columns index index_name].
  change (index_name (frame_map VCell df)) with (index_name df).
  change (index (frame_map VCell df)) with (index df).
  rewrite Hname.
  assert (Hidx : existsb (String.eqb "index")
                   (map fst (rest ++ [("point", map record_of coords)])%list)
                 = false).
  { rewrite map_app, existsb_app, (Hrest "index" Hindex). reflexivity. }
  rewrite Hidx. rewrite Hidx. cbn [obind].
  unfold drop_column, has_column, names, nrows.
  cbn [columns index index_name map fst existsb String.eqb Ascii.eqb
       Bool.eqb orb].
  f_equal. f_equal.
  unfold remove_named at 1. cbn [filter fst negb String.eqb Ascii.eqb Bool.eqb].
  apply (remove_named_absent "index"). exact Hidx.
Qed.

Lemma get_column_kept (remove_duplicates : option bool)
    (df : DataFrame cell) (name : string) (vs : list cell)
    (P : cell -> Prop) :
  get_column name df = Some vs ->
  Forall P vs ->
  exists vs',
    get_column name
      (if truthy remove_duplicates then drop_duplicates df else df)
    = Some vs'
    /\ Forall P vs'.
Proof.
  intros Hc HP. destruct (truthy remove_duplicates).
  - destruct (get_column_drop_duplicates df name vs Hc) as [mask [H | H]].
    + exists (select mask vs). split; [exact H | now apply select_Forall].
    + exists vs. now split.
  - exists vs. now split.
Qed.

Lemma Forall2_length_eq {A B} (R : A -> B -> Prop) (l1 : list A)
    (l2 : list B) :
  Forall2 R l1 l2 -> length l1 = length l2.
Proof. induction 1; simpl; congruence. Qed.

(** C1, as the code has it. Let the loaded table have distinct column
    names, an index without a name, no column named "index" or "point",
    and a column "geometry" whose cells all decode to points that are
    not empty (their coordinates can be read). Then the output has no key
    "geometry"; its keys are the other columns in their
    order followed by "point"; under "point" every row position 0..n-1
    maps to the record with keys "y" and "x" holding the coordinates of
    the decoded point of that row; every other column keeps its cells,
    keyed by the row positions; n is the row count of the loaded table,
    or of what [drop_duplicates] leaves of it when that was asked for. *)
Theorem geometry_becomes_point
    (read_parquet : reader) (from_wkb : decoder)
    (model variable date region cols : option string)
    (filters : option (list (list jval))) (remove_duplicates : option bool)
    (path : string) (df : DataFrame cell) (gs : list cell) :
  resolve_path model variable date region = Return path ->
  read_parquet path (option_map (PyStr.split ";") cols)
    (option_map (map Tuple) filters) = Return df ->
  frame_ok df ->
  index_name df = None ->
  has_column "index" df = false ->
  has_column "point" df = false ->
  get_column "geometry" df = Some gs ->
  Forall (fun g => exists x y, from_wkb g = Return (Point x y)) gs ->
  let kept := if truthy remove_duplicates then drop_duplicates df else df in
  let rows := range_index (nrows kept) in
  exists out gs' coords,
    outcome_of (get_spectra_geoparquet read_parquet from_wkb model variable
                  date region cols filters remove_duplicates)
    = Return out
    /\ get_column "geometry" kept = Some gs'
    /\ Forall2 (fun g xy => from_wkb g = Return (Point (fst xy) (snd xy)))
               gs' coords
    /\ length coords = nrows kept
    /\ map fst out
       = (filter (fun k => negb (String.eqb "geometry" k)) (names df)
          ++ ["point"])%list
    /\ dict_get String.eqb "geometry" out = None
    /\ dict_get String.eqb "point" out
       = Some (combine rows
                 (map (fun xy => VDict [("y", snd xy); ("x", fst xy)])
                      coords))
    /\ (forall c vs,
          c <> "geometry" ->
          get_column c kept = Some vs ->
          dict_get String.eqb c out = Some (combine rows (map VCell vs))
          /\ length vs = nrows kept)
    /\ nrows kept <= nrows df
    /\ (truthy remove_duplicates = false -> kept = df).
Proof.
  intros Hp Hr Hok Hname Hindex Hpoint Hgeo Hvalid kept rows.
  destruct (kept_table_facts remove_duplicates df)
    as [Hok' [Hnames [Hrows [Hname' Hsame]]]].
  fold kept in Hok', Hnames, Hrows, Hname', Hsame.
  specialize (Hok' Hok). specialize (Hname' Hname).
  destruct (get_column_kept remove_duplicates df "geometry" gs _ Hgeo Hvalid)
    as [gs' [Hgeo' Hvalid']].
  fold kept in Hgeo'.
  destruct (decode_all from_wkb gs' Hvalid') as [coords [Hdec Hmap]].
  pose proof (column_length kept "geometry" gs' Hok' Hgeo') as Hlen.
  pose proof (Forall2_length_eq _ _ _ Hdec) as Hlen2.
  assert (Hconv := convert_geometry_result from_wkb kept gs' coords Hname').
  rewrite !(has_column_same_names _ kept df Hnames) in Hconv.
  specialize (Hconv Hindex Hpoint (get_column_some _ _ _ Hgeo) Hmap).
  set (final := mkFrame None rows
                  (remove_named "geometry" (columns (frame_map VCell kept))
                   ++ [("point", map record_of coords)])%list) in *.
  assert (Hfinal_names :
            names final
            = (filter (fun k => negb (String.eqb "geometry" k)) (names df)
               ++ ["point"])%list).
  { unfold names, final. cbn [columns]. rewrite map_app, names_remove_named.
    change (map fst (columns (frame_map VCell kept)))
      with (names (frame_map VCell kept)).
    now rewrite names_frame_map, Hnames. }
  assert (Hnd : NoDup (names final)).
  { rewrite Hfinal_names. apply NoDup_app.
    - apply NoDup_filter. apply Hok.
    - constructor; [intros [] | constructor].
    - intros k Hk [<- | []]. apply filter_In in Hk. destruct Hk as [Hk _].
      apply has_column_In in Hk. congruence. }
  assert (Hlook : forall c,
            dict_get String.eqb c (to_dict final)
            = option_map (fun vs => combine rows vs) (get_column c final)).
  { intros c. rewrite to_dict_lookup by exact Hnd.
    destruct (get_column c final); [|reflexivity].
    simpl. f_equal. apply dict_of_range. }
  exists (to_dict final), gs', coords.
  split.
  { rewrite (run_loaded read_parquet from_wkb model variable date region
               cols filters remove_duplicates path df Hp Hr).
    unfold outcome_of, transform. cbn [snd]. fold kept.
    rewrite Hgeo', Hconv. reflexivity. }
  split; [exact Hgeo'|]. split; [exact Hdec|].
  split; [congruence|].
  split; [rewrite to_dict_keys by exact Hnd; exact Hfinal_names|].
  split.
  { rewrite Hlook. unfold get_column, final. cbn [columns].
    rewrite assoc_app, assoc_remove_named_same. reflexivity. }
  split.
  { rewrite Hlook. unfold get_column, final. cbn [columns].
    rewrite assoc_app.
    rewrite assoc_remove_named_other by discriminate.
    change (assoc "point" (columns (frame_map VCell kept)))
      with (get_column "point" (frame_map VCell kept)).
    rewrite get_column_frame_map.
    assert (Hnp : get_column "point" kept = None).
    { apply get_column_none.
      now rewrite (has_column_same_names "point" kept df Hnames). }
    rewrite Hnp. reflexivity. }
  split.
  { intros c vs Hne Hc. split; [|now apply (column_length kept c vs)].
    rewrite Hlook. unfold get_column, final. cbn [columns].
    rewrite assoc_app, assoc_remove_named_other by exact Hne.
    change (assoc c (columns (frame_map VCell kept)))
      with (get_column c (frame_map VCell kept)).
    rewrite get_column_frame_map, Hc. reflexivity. }
  split; [exact Hrows | exact Hsame].
Qed.

Lemma stations_ok : frame_ok stations.
Proof. frame_ok_by_computation. Qed.

Lemma stations_geometry_valid :
  Forall (fun g => exists x y, wkb_point_le g = Return (Point x y))
         [wkb_1_2; wkb_2_1; wkb_1_2].
Proof.
  repeat (constructor; [do 2 eexists; reflexivity|]). constructor.
Qed.

Lemma stations_example :
  exists out,
    outcome_of (get_spectra_geoparquet (reader_of stations) wkb_point_le
                  (Some "GEWPS") (Some "EFTH") (Some "2025031500") None
                  None None (Some true))
    = Return out
    /\ map fst out = ["station_name"; "member"; "point"]
    /\ dict_get String.eqb "geometry" out = None
    /\ dict_get String.eqb "member" out
       = Some [(CInt 0, VCell (CInt 0)); (CInt 1, VCell (CInt 0))].
Proof.
  destruct (geometry_becomes_point (reader_of stations) wkb_point_le
              (Some "GEWPS") (Some "EFTH") (Some "2025031500") None None
              None (Some true)
              "https://goc-dx.science.gc.ca/~swav000/geoparquet/gewps/2025031500_MSC_GEWPS_EFTH.geoparquet"
              stations [wkb_1_2; wkb_2_1; wkb_1_2]
              eq_refl eq_refl stations_ok eq_refl eq_refl eq_refl eq_refl
              stations_geometry_valid)
    as [out [gs' [coords [Hout [_ [_ [_ [Hkeys [Hgeo [_ [Hcells _]]]]]]]]]]].
  exists out. split; [exact Hout|]. split; [exact Hkeys|].
  split; [exact Hgeo|].
  refine (proj1 (Hcells "member" [CInt 0; CInt 0] _ eq_refl)).
  discriminate.
Defined.

(** The whole output for the sample table, duplicates removed. *)
Lemma stations_output :
  outcome_of (get_spectra_geoparquet (reader_of stations) wkb_point_le
                (Some "GEWPS") (Some "EFTH") (Some "2025031500") None
                None None (Some true))
  = Return
      [ ("station_name",
         [(CInt 0, VCell (CStr "00N000E")); (CInt 1, VCell (CStr "46N131W"))]);
        ("member", [(CInt 0, VCell (CInt 0)); (CInt 1, VCell (CInt 0))]);
        ("point",
         [(CInt 0, VDict [("y", f_two); ("x", f_one)]);
          (CInt 1, VDict [("y", f_one); ("x", f_two)])]) ].
Proof. reflexivity. Qed.

(** A loaded table that already has a column "point": the assignment of
    line 168 replaces it, so that column does not keep its cells and
    "point" is not a key added after the loaded columns. *)
Lemma loaded_point_column_is_replaced :
  frame_ok table_with_point
  /\ get_column "geometry" table_with_point = Some [wkb_1_2]
  /\ wkb_point_le wkb_1_2 = Return (Point f_one f_two)
  /\ get_column "point" table_with_point = Some [CInt 7]
  /\ exists out,
       outcome_of (get_spectra_geoparquet (reader_of table_with_point)
                     wkb_point_le (Some "GEWPS") (Some "EFTH")
                     (Some "2025031500") None None None None)
       = Return out
       /\ map fst out = ["point"]
       /\ dict_get String.eqb "point" out
          = Some [(CInt 0, VDict [("y", f_two); ("x", f_one)])]
       /\ dict_get String.eqb "point" out
          <> Some [(CInt 0, VCell (CInt 7))].
Proof.
  split; [frame_ok_by_computation|].
  split; [reflexivity|]. split; [reflexivity|]. split; [reflexivity|].
  eexists. split; [reflexivity|]. split; [reflexivity|].
  split; [reflexivity | discriminate].
Qed.

(** A loaded table with a column "index": [reset_index] names the
    materialized labels "level_0", and line 170 drops the loaded column. *)
Lemma loaded_index_column_is_dropped :
  outcome_of (get_spectra_geoparquet (reader_of table_with_index)
                wkb_point_le (Some "GEWPS") (Some "EFTH")
                (Some "2025031500") None None None None)
  = Return [ ("level_0", [(CInt 0, VCell (CInt 0))]);
             ("point", [(CInt 0, VDict [("y", f_two); ("x", f_one)])]) ].
Proof. reflexivity. Qed.

(** A loaded table whose index has a name other than "index": the
    materialized column carries that name and line 170 finds no column
    "index". *)
Lemma named_index_raises_KeyError :
  outcome_of (get_spectra_geoparquet (reader_of table_named_index)
                wkb_point_le (Some "GEWPS") (Some "EFTH")
                (Some "2025031500") None None None None)
  = Raise (KeyError, dquote ++ "['index'] not found in axis" ++ dquote).
Proof. reflexivity. Qed.

(** * Further properties of the module *)

(** ** Letter case *)

Lemma ascii_upper_lower (c : ascii) :
  PyStr.ascii_upper (PyStr.ascii_lower c) = PyStr.ascii_upper c.
Proof.
  destruct c as [[] [] [] [] [] [] [] []]; vm_compute; reflexivity.
Qed.

Lemma ascii_lower_upper (c : ascii) :
  PyStr.ascii_lower (PyStr.ascii_upper c) = PyStr.ascii_lower c.
Proof.
  destruct c as [[] [] [] [] [] [] [] []]; vm_compute; reflexivity.
Qed.

Lemma upper_lower (s : string) : PyStr.upper (PyStr.lower s) = PyStr.upper s.
Proof.
  induction s as [|c r IH]; [reflexivity|].
  unfold PyStr.upper, PyStr.lower in *. simpl.
  now rewrite ascii_upper_lower, IH.
Qed.

Lemma lower_upper (s : string) : PyStr.lower (PyStr.upper s) = PyStr.lower s.
Proof.
  induction s as [|c r IH]; [reflexivity|].
  unfold PyStr.upper, PyStr.lower in *. simpl.
  now rewrite ascii_lower_upper, IH.
Qed.

Lemma same_lower_same_upper (a b : string) :
  PyStr.lower a = PyStr.lower b -> PyStr.upper a = PyStr.upper b.
Proof.
  intros H. rewrite <- (upper_lower a), <- (upper_lower b). now rewrite H.
Qed.

Lemma family_cases (ml : string) :
  In ml (family_A ++ family_B) ->
  ml = "gewps" \/ ml = "gdwps" \/ ml = "rdwps" \/ ml = "rewps".
Proof.
  simpl. intros [H | [H | [H | [H | []]]]]; subst; auto.
Qed.

Lemma known_model_path (m : string) (variable date region : option string) :
  In (PyStr.lower m) (family_A ++ family_B) ->
  resolve_path (Some m) variable date region
  = obind (str_method "upper" PyStr.upper variable) (fun vu =>
    Return (MAIN_URL ++ "/" ++ PyStr.lower m ++ "/" ++ fmt date ++ "_MSC_"
              ++ PyStr.upper (PyStr.lower m)
              ++ (if PyStr.in_tuple (PyStr.lower m) family_A then ""
                  else "-" ++ fmt region)
              ++ "_" ++ vu ++ ".geoparquet")).
Proof.
  intros H. unfold resolve_path. rewrite upper_lower.
  apply family_cases in H.
  destruct H as [H | [H | [H | H]]]; rewrite H; reflexivity.
Qed.

(** X1. For variables written in ASCII, the letter case of the model and
    of the variable does not matter: two calls whose models agree up to
    case, are of a known family, and whose ASCII variables agree up to
    case, behave alike in everything (same reader call, same result). *)
Theorem operation_ignores_letter_case
    (read_parquet : reader) (from_wkb : decoder)
    (m1 m2 v1 v2 : string) (date region cols : option string)
    (filters : option (list (list jval))) (remove_duplicates : option bool) :
  PyStr.lower m1 = PyStr.lower m2 ->
  is_ascii v1 = true ->
  is_ascii v2 = true ->
  PyStr.lower v1 = PyStr.lower v2 ->
  In (PyStr.lower m1) (family_A ++ family_B) ->
  resolve_path (Some m1) (Some v1) date region
  = resolve_path (Some m2) (Some v2) date region
  /\ get_spectra_geoparquet read_parquet from_wkb (Some m1) (Some v1) date
       region cols filters remove_duplicates
     = get_spectra_geoparquet read_parquet from_wkb (Some m2) (Some v2) date
         region cols filters remove_duplicates.
Proof.
  intros Hm _ _ Hv Hin.
  assert (Hp : resolve_path (Some m1) (Some v1) date region
               = resolve_path (Some m2) (Some v2) date region).
  { rewrite (known_model_path m1) by exact Hin.
    rewrite (known_model_path m2) by (rewrite <- Hm; exact Hin).
    rewrite Hm. simpl. now rewrite (same_lower_same_upper v1 v2 Hv). }
  split; [exact Hp|].
  unfold get_spectra_geoparquet. now rewrite Hp.
Qed.

Lemma letter_case_example :
  resolve_path (Some "GeWpS") (Some "Efth") (Some "2025031500") None
  = resolve_path (Some "gewps") (Some "EFTH") (Some "2025031500") None.
Proof.
  refine (proj1 (operation_ignores_letter_case (reader_of plain_table)
                   wkb_point_le "GeWpS" "gewps" "Efth" "EFTH"
                   (Some "2025031500") None None None None _ _ _ _ _)).
  - reflexivity.
  - reflexivity.
  - reflexivity.
  - reflexivity.
  - simpl. auto.
Defined.

(** X2. Whenever a path is resolved, the model is a string of one of the
    four known names up to case and the variable is a string; the path is
    the base, the lowercase name as directory, then the date, "_MSC_", the
    uppercase name, for the regional models "-" and the region, "_", the
    uppercase variable and ".geoparquet". *)
Theorem resolved_path_inversion
    (model variable date region : option string) (path : string) :
  resolve_path model variable date region = Return path ->
  exists m v tag TAG,
    model = Some m /\ variable = Some v
    /\ PyStr.lower m = tag
    /\ In (tag, TAG, PyStr.in_tuple tag family_B)
          [ ("gewps", "GEWPS", false); ("gdwps", "GDWPS", false);
            ("rdwps", "RDWPS", true); ("rewps", "REWPS", true) ]
    /\ path = MAIN_URL ++ "/" ++ tag ++ "/" ++ fmt date ++ "_MSC_" ++ TAG
                ++ (if PyStr.in_tuple tag family_B
                    then "-" ++ fmt region else "")
                ++ "_" ++ PyStr.upper v ++ ".geoparquet".
Proof.
  intros H. destruct model as [m|]; [|discriminate H].
  destruct (PyStr.in_tuple (PyStr.lower m) family_A) eqn:EA.
  - assert (Hin : In (PyStr.lower m) (family_A ++ family_B))
      by (apply in_or_app; left; now apply in_tuple_In).
    rewrite (known_model_path m variable date region Hin) in H.
    destruct variable as [v|]; [|discriminate H].
    simpl in H. injection H as <-.
    exists m, v, (PyStr.lower m), (PyStr.upper (PyStr.lower m)).
    apply in_tuple_In in EA.
    destruct EA as [E | [E | []]]; rewrite <- E;
      repeat split; simpl; auto.
  - destruct (PyStr.in_tuple (PyStr.lower m) family_B) eqn:EB.
    + assert (Hin : In (PyStr.lower m) (family_A ++ family_B))
        by (apply in_or_app; right; now apply in_tuple_In).
      rewrite (known_model_path m variable date region Hin) in H.
      destruct variable as [v|]; [|discriminate H].
      simpl in H. injection H as <-.
      exists m, v, (PyStr.lower m), (PyStr.upper (PyStr.lower m)).
      apply in_tuple_In in EB.
      destruct EB as [E | [E | []]]; rewrite <- E;
        repeat split; simpl; auto.
    + unfold resolve_path in H. rewrite EA, EB in H. discriminate H.
Qed.

Lemma resolved_path_inversion_example :
  exists m v tag TAG,
    Some "Rewps" = Some m /\ Some "efth" = Some v
    /\ PyStr.lower m = tag
    /\ In (tag, TAG, PyStr.in_tuple tag family_B)
          [ ("gewps", "GEWPS", false); ("gdwps", "GDWPS", false);
            ("rdwps", "RDWPS", true); ("rewps", "REWPS", true) ]
    /\ "https://goc-dx.science.gc.ca/~swav000/geoparquet/rewps/2025031500_MSC_REWPS-erie_EFTH.geoparquet"
       = MAIN_URL ++ "/" ++ tag ++ "/" ++ fmt (Some "2025031500") ++ "_MSC_"
           ++ TAG
           ++ (if PyStr.in_tuple tag family_B
               then "-" ++ fmt (Some "erie") else "")
           ++ "_" ++ PyStr.upper v ++ ".geoparquet".
Proof.
  apply (resolved_path_inversion (Some "Rewps") (Some "efth")
           (Some "2025031500") (Some "erie")).
  reflexivity.
Defined.

(** ** Direct calls with missing arguments *)

(** X3. In a direct call, a model that is [None], or a variable that is
    [None] beside a model of a known family, raises AttributeError before
    the reader is called; a date that is [None] does not fail: the text
    "None" stands in the path where the date goes. *)
Theorem missing_arguments_in_direct_call
    (read_parquet : reader) (from_wkb : decoder)
    (m v : string) (variable date region cols : option string)
    (filters : option (list (list jval))) (remove_duplicates : option bool) :
  In (PyStr.lower m) (family_A ++ family_B) ->
  get_spectra_geoparquet read_parquet from_wkb None variable date region
    cols filters remove_duplicates
  = ([], Raise (AttributeError,
                "'NoneType' object has no attribute 'lower'"))
  /\ get_spectra_geoparquet read_parquet from_wkb (Some m) None date region
       cols filters remove_duplicates
     = ([], Raise (AttributeError,
                   "'NoneType' object has no attribute 'upper'"))
  /\ exists rest,
       trace_of (get_spectra_geoparquet read_parquet from_wkb (Some m)
                   (Some v) None region cols filters remove_duplicates)
       = [ReadParquet
            (MAIN_URL ++ "/" ++ PyStr.lower m ++ "/" ++ "None" ++ "_MSC_"
               ++ rest)
            (option_map (PyStr.split ";") cols)
            (option_map (map Tuple) filters)].
Proof.
  intros Hin. split; [reflexivity|]. split.
  - apply run_no_path. now rewrite known_model_path.
  - eexists. apply run_trace. rewrite known_model_path by exact Hin.
    simpl. reflexivity.
Qed.

Lemma missing_arguments_example :
  get_spectra_geoparquet (reader_of plain_table) wkb_point_le (Some "rdwps")
    None (Some "2025031500") (Some "erie") None None None
  = ([], Raise (AttributeError,
                "'NoneType' object has no attribute 'upper'")).
Proof.
  refine (proj1 (proj2 (missing_arguments_in_direct_call
                          (reader_of plain_table) wkb_point_le "rdwps" "efth"
                          None (Some "2025031500") (Some "erie") None None
                          None _))).
  simpl. auto.
Defined.

(** ** The region of a global model *)

(** X4. For a family-A model the region has no effect: the operation
    gives the same events and result for any two regions, and so does
    [execute] for two payloads that differ in "region" only. *)
Theorem region_is_ignored_for_family_A
    (read_parquet : reader) (from_wkb : decoder)
    (m : string) (variable date r1 r2 cols : option string)
    (filters : option (list (list jval))) (remove_duplicates : option bool) :
  In (PyStr.lower m) family_A ->
  get_spectra_geoparquet read_parquet from_wkb (Some m) variable date r1
    cols filters remove_duplicates
  = get_spectra_geoparquet read_parquet from_wkb (Some m) variable date r2
      cols filters remove_duplicates
  /\ execute read_parquet from_wkb
       (mkPayload (Some m) variable date r1 cols filters remove_duplicates)
     = execute read_parquet from_wkb
         (mkPayload (Some m) variable date r2 cols filters
                    remove_duplicates).
Proof.
  intros HA.
  assert (Hp : resolve_path (Some m) variable date r1
               = resolve_path (Some m) variable date r2).
  { unfold resolve_path. apply in_tuple_In in HA. now rewrite HA. }
  assert (Hop : get_spectra_geoparquet read_parquet from_wkb (Some m)
                  variable date r1 cols filters remove_duplicates
                = get_spectra_geoparquet read_parquet from_wkb (Some m)
                    variable date r2 cols filters remove_duplicates)
    by (unfold get_spectra_geoparquet; now rewrite Hp).
  split; [exact Hop|].
  unfold execute, execute_with, mkPayload.
  cbn [p_model p_variable p_date p_region p_columns p_filters
       p_remove_duplicates].
  rewrite (required_params_family_A m HA). rewrite Hop.
  reflexivity.
Qed.

Lemma region_is_ignored_example :
  execute (reader_of plain_table) wkb_point_le
    (mkPayload (Some "GDWPS") (Some "EFTH") (Some "2025031500")
               (Some "erie") None None None)
  = execute (reader_of plain_table) wkb_point_le
      (mkPayload (Some "GDWPS") (Some "EFTH") (Some "2025031500") None None
                 None None).
Proof.
  refine (proj2 (region_is_ignored_for_family_A (reader_of plain_table)
                   wkb_point_le "GDWPS" (Some "EFTH") (Some "2025031500")
                   (Some "erie") None None None None _)).
  simpl. auto.
Defined.

(** ** Splitting the columns string *)

Lemma split_clean (sep : ascii) (s : string) :
  PyStr.has_char sep s = false -> PyStr.split sep s = [s].
Proof.
  induction s as [|c r IH]; [reflexivity|].
  simpl. intros H. apply orb_false_iff in H. destruct H as [H1 H2].
  rewrite H1, (IH H2). reflexivity.
Qed.

Lemma split_clean_then_sep (sep : ascii) (s rest : string) :
  PyStr.has_char sep s = false ->
  PyStr.split sep (s ++ String sep rest) = s :: PyStr.split sep rest.
Proof.
  induction s as [|c r IH]; simpl.
  - intros _. now rewrite Ascii.eqb_refl.
  - intros H. apply orb_false_iff in H. destruct H as [H1 H2].
    rewrite H1, (IH H2). reflexivity.
Qed.

(** X5. Splitting undoes joining: a non-empty list of names, none of
    which holds the separator, joined by the separator and split again
    gives the list back. *)
Theorem split_join_roundtrip (sep : ascii) (pieces : list string) :
  pieces <> [] ->
  Forall (fun p => PyStr.has_char sep p = false) pieces ->
  PyStr.split sep (PyStr.join sep pieces) = pieces.
Proof.
  intros Hne Hall. induction Hall as [|p rest Hp Hrest IH]; [contradiction|].
  destruct rest as [|q rest].
  - simpl. now apply split_clean.
  - change (PyStr.join sep (p :: q :: rest))
      with (p ++ String sep (PyStr.join sep (q :: rest))).
    rewrite split_clean_then_sep by exact Hp.
    rewrite IH by discriminate. reflexivity.
Qed.

Lemma split_join_example :
  PyStr.split ";" (PyStr.join ";" ["station_name"; ""; "member"])
  = ["station_name"; ""; "member"].
Proof.
  apply split_join_roundtrip.
  - discriminate.
  - repeat (constructor; [reflexivity|]). constructor.
Defined.

(** X6. A columns string with k separators is sent to the reader as k+1
    names, empty ones included: an empty string is one empty name, and a
    string without ";" is one name, itself. *)
Theorem columns_are_counted_by_separators
    (read_parquet : reader) (from_wkb : decoder)
    (model variable date region : option string) (cols : string)
    (filters : option (list (list jval))) (remove_duplicates : option bool)
    (path : string) :
  resolve_path model variable date region = Return path ->
  exists sent,
    trace_of (get_spectra_geoparquet read_parquet from_wkb model variable
                date region (Some cols) filters remove_duplicates)
    = [ReadParquet path (Some sent) (option_map (map Tuple) filters)]
    /\ length sent = S (count_char ";" cols)
    /\ (PyStr.has_char ";" cols = false -> sent = [cols]).
Proof.
  intros Hp. exists (PyStr.split ";" cols).
  split; [now apply run_trace|]. split.
  - induction cols as [|c r IH]; [reflexivity|].
    simpl. destruct (Ascii.eqb c ";"); simpl.
    + now rewrite IH.
    + destruct (PyStr.split ";" r) as [|h t] eqn:E.
      * now apply split_not_nil in E.
      * exact IH.
  - apply split_clean.
Qed.

Lemma empty_columns_example :
  exists sent,
    trace_of (get_spectra_geoparquet (reader_of plain_table) wkb_point_le
                (Some "gewps") (Some "efth") (Some "2025031500") None
                (Some "") None None)
    = [ReadParquet
         "https://goc-dx.science.gc.ca/~swav000/geoparquet/gewps/2025031500_MSC_GEWPS_EFTH.geoparquet"
         (Some sent) (option_map (map Tuple) None)]
    /\ length sent = S (count_char ";" "")
    /\ (PyStr.has_char ";" "" = false -> sent = [""]).
Proof.
  apply (columns_are_counted_by_separators (reader_of plain_table)
           wkb_point_le (Some "gewps") (Some "efth") (Some "2025031500")
           None "" None None).
  reflexivity.
Defined.

(** ** Events of the operation and of the adapter *)

(** X7. The operation calls the reader once when the path resolves, with
    that path, and not at all when it does not (the exception of the
    resolution is then the result); it never logs. *)
Theorem operation_reads_once_iff_path_resolves
    (read_parquet : reader) (from_wkb : decoder)
    (model variable date region cols : option string)
    (filters : option (list (list jval))) (remove_duplicates : option bool) :
  let run := get_spectra_geoparquet read_parquet from_wkb model variable
               date region cols filters remove_duplicates in
  (exists e,
     resolve_path model variable date region = Raise e
     /\ run = ([], Raise e))
  \/ (exists path,
        resolve_path model variable date region = Return path
        /\ trace_of run
           = [ReadParquet path (option_map (PyStr.split ";") cols)
                          (option_map (map Tuple) filters)]).
Proof.
  intros run.
  destruct (resolve_path model variable date region) as [path | e] eqn:Hp.
  - right. exists path. split; [reflexivity|]. now apply run_trace.
  - left. exists e. split; [reflexivity|]. now apply run_no_path.
Qed.

Lemma required_params_inversion (model : option string)
    (required : list string) :
  required_params model = Return required ->
  exists m,
    model = Some m
    /\ ((In (PyStr.lower m) family_A
         /\ required = ["model"; "variable"; "date"])
        \/ (In (PyStr.lower m) family_B
            /\ required = ["model"; "variable"; "date"; "region"])).
Proof.
  destruct model as [m|]; [|discriminate].
  unfold required_params, str_method, obind.
  destruct (PyStr.in_tuple (PyStr.lower m) ["gdwps"; "gewps"]) eqn:EA.
  - intros H. injection H as <-. exists m. split; [reflexivity|]. left.
    split; [|reflexivity].
    apply in_tuple_In in EA. simpl in *. tauto.
  - destruct (PyStr.in_tuple (PyStr.lower m) ["rdwps"; "rewps"]) eqn:EB;
      [|discriminate].
    intros H. injection H as <-. exists m. split; [reflexivity|]. right.
    split; [|reflexivity]. now apply in_tuple_In in EB.
Qed.

Lemma required_params_failure (model : option string) (e : exn) :
  required_params model = Raise e ->
  (model = None
   /\ e = (AttributeError, "'NoneType' object has no attribute 'lower'"))
  \/ (exists m,
        model = Some m
        /\ ~ In (PyStr.lower m) family_A
        /\ ~ In (PyStr.lower m) family_B
        /\ e = (ValueError, "Invalid model " ++ m)).
Proof.
  destruct model as [m|].
  - intros H. right. exists m. split; [reflexivity|].
    destruct (PyStr.in_tuple (PyStr.lower m) family_A) eqn:EA.
    { apply in_tuple_In in EA.
      rewrite (required_params_family_A m EA) in H. discriminate H. }
    destruct (PyStr.in_tuple (PyStr.lower m) family_B) eqn:EB.
    { apply in_tuple_In in EB.
      rewrite (required_params_family_B m EB) in H. discriminate H. }
    assert (HA : ~ In (PyStr.lower m) family_A)
      by (intros Hin; apply in_tuple_In in Hin; congruence).
    assert (HB : ~ In (PyStr.lower m) family_B)
      by (intros Hin; apply in_tuple_In in Hin; congruence).
    rewrite (required_params_unknown m HA HB) in H. injection H as <-.
    auto.
  - intros H. left. split; [reflexivity|]. simpl in H. now injection H as <-.
Qed.

Lemma checks_then_path (data : payload) (required : list string) :
  required_params (p_model data) = Return required ->
  (exists path,
     resolve_path (p_model data) (p_variable data) (p_date data)
       (p_region data) = Return path)
  \/ (p_variable data = None
      /\ resolve_path (p_model data) (p_variable data) (p_date data)
           (p_region data)
         = Raise (AttributeError,
                  "'NoneType' object has no attribute 'upper'")).
Proof.
  intros Hr.
  destruct (required_params_inversion _ _ Hr) as [m [Hm Hfam]].
  rewrite Hm.
  assert (Hin : In (PyStr.lower m) (family_A ++ family_B))
    by (apply in_or_app; tauto).
  rewrite (known_model_path m _ _ _ Hin).
  destruct (p_variable data) as [v|].
  - left. simpl. eexists. reflexivity.
  - right. split; reflexivity.
Qed.

Lemma execute_cases
    (read_parquet : reader) (from_wkb : decoder) (data : payload) :
  let t := trace_of (execute read_parquet from_wkb data) in
  let res := outcome_of (execute read_parquet from_wkb data) in
  (t = []
   /\ exists e,
        res = Raise e
        /\ (required_params (p_model data) = Raise e
            \/ (p_variable data = None
                /\ e = (AttributeError,
                        "'NoneType' object has no attribute 'upper'"))))
  \/ (t = [LogError "Missing required parameters."]
      /\ res = Raise (ProcessorExecuteError, "Missing required parameters."))
  \/ (exists required path,
        required_params (p_model data) = Return required
        /\ forallb (has_key data) required = true
        /\ resolve_path (p_model data) (p_variable data) (p_date data)
             (p_region data) = Return path
        /\ let read := ReadParquet path
                         (option_map (PyStr.split ";") (p_columns data))
                         (option_map (map Tuple) (p_filters data)) in
           (t = [read]
            /\ forall c msg, res = Raise (c, msg) ->
                             issubclass c ValueError = false)
           \/ (exists msg,
                 t = [read; LogError msg]
                 /\ res = Raise (ProcessorExecuteError, msg))).
Proof.
  intros t res. unfold t, res, execute. clear t res.
  destruct (required_params (p_model data)) as [required | e] eqn:Hr.
  2:{ left. unfold execute_with. rewrite Hr. split; [reflexivity|].
      exists e. split; [reflexivity | now left]. }
  destruct (forallb (has_key data) required) eqn:Hf.
  2:{ right. left.
      rewrite (execute_with_missing _ data required Hr Hf).
      split; reflexivity. }
  destruct (checks_then_path data required Hr) as [[path Hp] | [Hv Hp]].
  2:{ left.
      pose proof (run_no_path read_parquet from_wkb _ _ _ _ (p_columns data)
                    (p_filters data) (p_remove_duplicates data) _ Hp)
        as Hop.
      rewrite (execute_with_failure _ data required _ _ _ Hr Hf Hop).
      cbn [issubclass]. split; [reflexivity|].
      eexists. split; [reflexivity|]. right. split; [exact Hv | reflexivity]. }
  right. right.
  exists required, path.
  split; [reflexivity|]. split; [exact Hf|]. split; [exact Hp|].
  pose proof (run_trace read_parquet from_wkb _ _ _ _ (p_columns data)
                (p_filters data) (p_remove_duplicates data) path Hp) as Ht.
  destruct (call_operation (get_spectra_geoparquet read_parquet from_wkb)
              data) as [t0 [out | [c msg]]] eqn:Hop;
    unfold call_operation in Hop; rewrite Hop in Ht; cbn in Ht; subst t0.
  - left.
    rewrite (execute_with_success _ data required _ out Hr Hf Hop).
    split; [reflexivity|]. intros c msg H. discriminate H.
  - rewrite (execute_with_failure _ data required _ c msg Hr Hf Hop).
    destruct (issubclass c ValueError) eqn:Hc.
    + right. eexists. split; reflexivity.
    + left. split; [reflexivity|].
      intros c' msg' H. cbn in H. injection H as <- <-. exact Hc.
Qed.


(** A payload whose "variable" is null passes the check of line 203 and
    fails in the operation, before the reader is called. *)
Lemma null_variable_passes_the_checks :
  forallb (has_key payload_null_variable) ["model"; "variable"; "date"]
  = true
  /\ execute (reader_of plain_table) wkb_point_le payload_null_variable
     = ([], Raise (AttributeError,
                   "'NoneType' object has no attribute 'upper'")).
Proof. split; reflexivity. Qed.

(** X9. The only ValueError (or instance of a subclass of it) that leaves
    [execute] is the "Invalid model ..." of its own check, raised before
    any event: every other one is translated. *)
Theorem only_invalid_model_escapes_as_ValueError
    (read_parquet : reader) (from_wkb : decoder) (data : payload)
    (c : exn_class) (msg : string) :
  outcome_of (execute read_parquet from_wkb data) = Raise (c, msg) ->
  issubclass c ValueError = true ->
  exists m,
    p_model data = Some m
    /\ ~ In (PyStr.lower m) family_A
    /\ ~ In (PyStr.lower m) family_B
    /\ execute read_parquet from_wkb data
       = ([], Raise (ValueError, "Invalid model " ++ m)).
Proof.
  intros Hres Hc.
  destruct (execute_cases read_parquet from_wkb data)
    as [[Ht [e [He [Hr | [_ ->]]]]] | [[_ He] | [req [path [_ [_ [_ H]]]]]]].
  - destruct (required_params_failure _ _ Hr)
      as [[_ ->] | [m [Hm [HA [HB ->]]]]].
    + rewrite Hres in He. injection He as -> _. discriminate Hc.
    + exists m. split; [exact Hm|]. split; [exact HA|]. split; [exact HB|].
      unfold execute, execute_with. rewrite Hr. reflexivity.
  - rewrite Hres in He. injection He as -> _. discriminate Hc.
  - rewrite Hres in He. injection He as -> _. discriminate Hc.
  - destruct H as [[_ H] | [msg' [_ He]]].
    + specialize (H c msg Hres). congruence.
    + rewrite Hres in He. injection He as -> _. discriminate Hc.
Qed.

Lemma invalid_model_escape_example :
  exists m,
    p_model (mkPayload (Some "WW3") None None None None None None) = Some m
    /\ ~ In (PyStr.lower m) family_A
    /\ ~ In (PyStr.lower m) family_B
    /\ execute (reader_of plain_table) wkb_point_le
         (mkPayload (Some "WW3") None None None None None None)
       = ([], Raise (ValueError, "Invalid model " ++ m)).
Proof.
  apply (only_invalid_model_escapes_as_ValueError (reader_of plain_table)
           wkb_point_le
           (mkPayload (Some "WW3") None None None None None None)
           ValueError "Invalid model WW3").
  - reflexivity.
  - reflexivity.
Defined.

(** X10. When [execute] returns, it returns the content type
    "application/json" with the output of the operation, and its events
    are the single call of the reader: nothing is logged on success, and
    the output is what the steps after the load make of the table that
    was read. *)
Theorem execute_success_inversion
    (read_parquet : reader) (from_wkb : decoder) (data : payload)
    (t : list event) (mimetype : string) (out : output) :
  execute read_parquet from_wkb data = (t, Return (mimetype, out)) ->
  mimetype = "application/json"
  /\ exists path df,
       resolve_path (p_model data) (p_variable data) (p_date data)
         (p_region data) = Return path
       /\ t = [ReadParquet path
                 (option_map (PyStr.split ";") (p_columns data))
                 (option_map (map Tuple) (p_filters data))]
       /\ read_parquet path
            (option_map (PyStr.split ";") (p_columns data))
            (option_map (map Tuple) (p_filters data)) = Return df
       /\ transform from_wkb (p_remove_duplicates data) df = Return out.
Proof.
  intros H. unfold execute in H.
  destruct (required_params (p_model data)) as [required | e] eqn:Hr.
  2:{ unfold execute_with in H. rewrite Hr in H. discriminate H. }
  destruct (forallb (has_key data) required) eqn:Hf.
  2:{ rewrite (execute_with_missing _ data required Hr Hf) in H.
      discriminate H. }
  destruct (checks_then_path data required Hr) as [[path Hp] | [_ Hp]].
  2:{ pose proof (run_no_path read_parquet from_wkb _ _ _ _ (p_columns data)
                    (p_filters data) (p_remove_duplicates data) _ Hp)
        as Hop.
      rewrite (execute_with_failure _ data required _ _ _ Hr Hf Hop) in H.
      discriminate H. }
  destruct (read_parquet path
              (option_map (PyStr.split ";") (p_columns data))
              (option_map (map Tuple) (p_filters data)))
    as [df | [c msg]] eqn:Hread.
  - pose proof (run_loaded read_parquet from_wkb _ _ _ _ _ _
                  (p_remove_duplicates data) path df Hp Hread) as Hop.
    destruct (transform from_wkb (p_remove_duplicates data) df)
      as [out' | [c msg]] eqn:Htr.
    + rewrite (execute_with_success _ data required _ out' Hr Hf Hop) in H.
      injection H as <- <- <-. split; [reflexivity|].
      exists path, df. auto.
    + rewrite (execute_with_failure _ data required _ c msg Hr Hf Hop) in H.
      destruct (issubclass c ValueError); discriminate H.
  - pose proof (run_load_failed read_parquet from_wkb _ _ _ _ _ _
                  (p_remove_duplicates data) path c msg Hp Hread) as Hop.
    match type of Hop with
    | _ = (_, Raise ?e) => destruct e as [c' msg']
    end.
    rewrite (execute_with_failure _ data required _ c' msg' Hr Hf Hop) in H.
    destruct (issubclass c' ValueError); discriminate H.
Qed.

Lemma execute_success_example :
  "application/json" = "application/json"
  /\ exists path df,
       resolve_path (p_model PROCESS_METADATA_example)
         (p_variable PROCESS_METADATA_example)
         (p_date PROCESS_METADATA_example)
         (p_region PROCESS_METADATA_example) = Return path
       /\ [ReadParquet
             "https://goc-dx.science.gc.ca/~swav000/geoparquet/gewps/2025031500_MSC_GEWPS_EFTH.geoparquet"
             (Some ["station_name"; "member"])
             (Some [ Tuple [JStr "station_name"; JStr "=="; JStr "00N000E"];
                     Tuple [JStr "member"; JStr "=="; JInt 0] ])]
          = [ReadParquet path
               (option_map (PyStr.split ";")
                  (p_columns PROCESS_METADATA_example))
               (option_map (map Tuple) (p_filters PROCESS_METADATA_example))]
       /\ reader_of plain_table path
            (option_map (PyStr.split ";")
               (p_columns PROCESS_METADATA_example))
            (option_map (map Tuple) (p_filters PROCESS_METADATA_example))
          = Return df
       /\ transform wkb_point_le
            (p_remove_duplicates PROCESS_METADATA_example) df
          = Return
              [ ("station_name",
                 [(CInt 10, VCell (CStr "00N000E"));
                  (CInt 20, VCell (CStr "46N131W"))]);
                ("member",
                 [(CInt 10, VCell (CInt 0)); (CInt 20, VCell (CInt 1))]) ].
Proof.
  apply (execute_success_inversion (reader_of plain_table) wkb_point_le
           PROCESS_METADATA_example).
  reflexivity.
Defined.

(** ** Geometry cells that are not points *)

Lemma series_map_first_failure {A B} (f : A -> outcome B)
    (pre : list A) (a : A) (post : list A) (e : exn) :
  Forall (fun x => exists b, f x = Return b) pre ->
  f a = Raise e ->
  series_map f (pre ++ a :: post)%list = Raise e.
Proof.
  intros Hpre Ha. induction Hpre as [|x pre [b Hx] _ IH]; simpl.
  - now rewrite Ha.
  - now rewrite Hx, IH.
Qed.

Lemma series_map_all {A B} (f : A -> outcome B) (l : list A) (bs : list B) :
  Forall2 (fun a b => f a = Return b) l bs ->
  series_map f l = Return bs.
Proof.
  induction 1 as [|a b l bs Ha _ IH]; simpl; [reflexivity|].
  now rewrite Ha, IH.
Qed.

Lemma transform_with_geometry (from_wkb : decoder)
    (remove_duplicates : option bool) (df : DataFrame cell)
    (gs : list cell) :
  let kept := if truthy remove_duplicates then drop_duplicates df else df in
  get_column "geometry" kept = Some gs ->
  transform from_wkb remove_duplicates df
  = obind (series_map from_wkb gs) (fun geoms =>
    obind (series_map point_record geoms) (fun records =>
    obind (reset_index
             (set_column "point" records
                (mkFrame (index_name kept) (index kept)
                   (remove_named "geometry"
                      (columns (frame_map VCell kept))))))
          (fun df' =>
    obind (drop_column "index" df') (fun df'' =>
    Return (to_dict df''))))).
Proof.
  intros kept Hg. unfold transform. fold kept. rewrite Hg.
  unfold convert_geometry, drop_column at 1.
  rewrite (has_column_same_names "geometry" (frame_map VCell kept) kept
             (names_frame_map VCell kept)).
  rewrite (get_column_some _ _ _ Hg). cbn [obind].
  destruct (series_map from_wkb gs) as [geoms|e]; [|reflexivity].
  cbn [obind].
  destruct (series_map point_record geoms) as [records|e]; [|reflexivity].
  cbn [obind].
  change (index_name (frame_map VCell kept)) with (index_name kept).
  change (index (frame_map VCell kept)) with (index kept).
  destruct (reset_index _); reflexivity.
Qed.

(** X11. A geometry cell that [from_wkb] rejects makes the operation fail
    with the exception of the decoder as it is (the load's [except]
    clauses do not apply any more): the exception is that of the first
    rejected cell, also when an earlier cell decoded to something that is
    not a point. *)
Theorem decoder_failure_is_not_wrapped
    (read_parquet : reader) (from_wkb : decoder)
    (model variable date region cols : option string)
    (filters : option (list (list jval))) (remove_duplicates : option bool)
    (path : string) (df : DataFrame cell)
    (pre : list cell) (g : cell) (post : list cell) (e : exn) :
  resolve_path model variable date region = Return path ->
  read_parquet path (option_map (PyStr.split ";") cols)
    (option_map (map Tuple) filters) = Return df ->
  get_column "geometry"
    (if truthy remove_duplicates then drop_duplicates df else df)
  = Some (pre ++ g :: post)%list ->
  Forall (fun c => exists p, from_wkb c = Return p) pre ->
  from_wkb g = Raise e ->
  get_spectra_geoparquet read_parquet from_wkb model variable date region
    cols filters remove_duplicates
  = ([ReadParquet path (option_map (PyStr.split ";") cols)
                  (option_map (map Tuple) filters)],
     Raise e).
Proof.
  intros Hp Hr Hg Hpre He.
  rewrite (run_loaded read_parquet from_wkb model variable date region cols
             filters remove_duplicates path df Hp Hr).
  f_equal.
  rewrite (transform_with_geometry from_wkb remove_duplicates df _ Hg).
  now rewrite (series_map_first_failure from_wkb pre g post e Hpre He).
Qed.

Lemma decoder_failure_example :
  get_spectra_geoparquet (reader_of table_bad_geometry) wkb_point_le
    (Some "gewps") (Some "efth") (Some "2025031500") None None None None
  = ([ReadParquet
        "https://goc-dx.science.gc.ca/~swav000/geoparquet/gewps/2025031500_MSC_GEWPS_EFTH.geoparquet"
        (option_map (PyStr.split ";") None) (option_map (map Tuple) None)],
     Raise (Exception_, "ParseException: unsupported geometry")).
Proof.
  apply (decoder_failure_is_not_wrapped (reader_of table_bad_geometry)
           wkb_point_le (Some "gewps") (Some "efth") (Some "2025031500")
           None None None None _ table_bad_geometry [CNone] (CBytes [x00])
           []).
  - reflexivity.
  - reflexivity.
  - reflexivity.
  - constructor; [eexists; reflexivity | constructor].
  - reflexivity.
Defined.

(** X12. When every geometry cell decodes, the first decoded object
    that is not a point with readable coordinates decides the failure:
    an object of another type (a missing geometry decodes to [None],
    say) gives AttributeError on its attribute 'y', and an empty point
    gives the GEOSException raised when its coordinate is read; no output
    is produced. *)
Theorem first_unreadable_geometry_decides_the_failure
    (read_parquet : reader) (from_wkb : decoder)
    (model variable date region cols : option string)
    (filters : option (list (list jval))) (remove_duplicates : option bool)
    (path : string) (df : DataFrame cell) (gs : list cell)
    (coords : list (float * float)) (bad : geometry)
    (post : list geometry) :
  resolve_path model variable date region = Return path ->
  read_parquet path (option_map (PyStr.split ";") cols)
    (option_map (map Tuple) filters) = Return df ->
  get_column "geometry"
    (if truthy remove_duplicates then drop_duplicates df else df)
  = Some gs ->
  Forall2 (fun c p => from_wkb c = Return p) gs
          (map point_of coords ++ bad :: post)%list ->
  let res := outcome_of (get_spectra_geoparquet read_parquet from_wkb model
                           variable date region cols filters
                           remove_duplicates) in
  (forall type_name,
     bad = NotPoint type_name ->
     res = Raise (AttributeError,
                  "'" ++ type_name ++ "' object has no attribute 'y'"))
  /\ (forall error,
        bad = EmptyPoint error -> res = Raise (GEOSException, error)).
Proof.
  intros Hp Hr Hg Hdec res.
  assert (Hres : forall e, point_record bad = Raise e -> res = Raise e).
  { intros e Hbad. unfold res.
    rewrite (run_loaded read_parquet from_wkb model variable date region
               cols filters remove_duplicates path df Hp Hr).
    unfold outcome_of. cbn [snd].
    rewrite (transform_with_geometry from_wkb remove_duplicates df _ Hg).
    rewrite (series_map_all from_wkb gs _ Hdec). cbn [obind].
    rewrite (series_map_first_failure point_record (map point_of coords)
               bad post e).
    - reflexivity.
    - apply Forall_map. apply Forall_forall. intros xy _.
      eexists. reflexivity.
    - exact Hbad. }
  split.
  - intros type_name ->. now apply Hres.
  - intros error ->. now apply Hres.
Qed.

Lemma unreadable_geometry_example :
  outcome_of (get_spectra_geoparquet (reader_of table_null_geometry)
                wkb_point_le (Some "gewps") (Some "efth")
                (Some "2025031500") None None None None)
  = Raise (AttributeError,
           "'" ++ "NoneType" ++ "' object has no attribute 'y'")
  /\ outcome_of (get_spectra_geoparquet (reader_of table_nan_point)
                   wkb_point_le (Some "gewps") (Some "efth")
                   (Some "2025031500") None None None None)
     = Raise (GEOSException,
              "UnsupportedOperationException: getY called on empty Point").
Proof.
  split.
  - refine (proj1 (first_unreadable_geometry_decides_the_failure
                     (reader_of table_null_geometry) wkb_point_le
                     (Some "gewps") (Some "efth") (Some "2025031500") None
                     None None None
                     "https://goc-dx.science.gc.ca/~swav000/geoparquet/gewps/2025031500_MSC_GEWPS_EFTH.geoparquet"
                     table_null_geometry [wkb_1_2; CNone] [(f_one, f_two)]
                     (NotPoint "NoneType") [] _ _ _ _) "NoneType" _);
      try reflexivity.
    repeat (constructor; [reflexivity|]). constructor.
  - refine (proj2 (first_unreadable_geometry_decides_the_failure
                     (reader_of table_nan_point) wkb_point_le
                     (Some "gewps") (Some "efth") (Some "2025031500") None
                     None None None
                     "https://goc-dx.science.gc.ca/~swav000/geoparquet/gewps/2025031500_MSC_GEWPS_EFTH.geoparquet"
                     table_nan_point [wkb_1_2; wkb_nan] [(f_one, f_two)]
                     (EmptyPoint
                        "UnsupportedOperationException: getY called on empty Point")
                     [] _ _ _ _)
                  "UnsupportedOperationException: getY called on empty Point"
                  _);
      try reflexivity.
    repeat (constructor; [reflexivity|]). constructor.
Defined.

(** ** Removing duplicate rows *)

(** X14. With [remove_duplicates], a table without a geometry column
    comes out with its columns in order and, under each, the cells that
    are left keyed by the row positions 0, 1, 2, ...: the row labels of
    the loaded table are not kept. *)
Theorem deduplicated_output_is_renumbered
    (read_parquet : reader) (from_wkb : decoder)
    (model variable date region cols : option string)
    (filters : option (list (list jval))) (path : string)
    (df : DataFrame cell) :
  resolve_path model variable date region = Return path ->
  read_parquet path (option_map (PyStr.split ";") cols)
    (option_map (map Tuple) filters) = Return df ->
  frame_ok df ->
  has_column "geometry" df = false ->
  exists out,
    outcome_of (get_spectra_geoparquet read_parquet from_wkb model variable
                  date region cols filters (Some true))
    = Return out
    /\ map fst out = names df
    /\ forall c vs,
         get_column c (drop_duplicates df) = Some vs ->
         dict_get String.eqb c out
         = Some (combine (range_index (length vs)) (map VCell vs)).
Proof.
  intros Hp Hr Hok Hgeo.
  set (kept := drop_duplicates df).
  assert (Hok' : frame_ok kept) by now apply frame_ok_drop_duplicates.
  assert (Hnames : names kept = names df) by apply names_drop_duplicates.
  assert (Hnone : get_column "geometry" kept = None).
  { apply get_column_none.
    now rewrite (has_column_same_names "geometry" kept df Hnames). }
  assert (Hnd : NoDup (names (frame_map VCell kept)))
    by (rewrite names_frame_map; apply Hok').
  exists (to_dict (frame_map VCell kept)).
  split.
  { rewrite (run_loaded read_parquet from_wkb model variable date region
               cols filters (Some true) path df Hp Hr).
    unfold outcome_of, transform. simpl. fold kept. now rewrite Hnone. }
  split.
  { rewrite to_dict_keys by exact Hnd. now rewrite names_frame_map. }
  intros c vs Hc.
  rewrite to_dict_lookup by exact Hnd.
  rewrite get_column_frame_map, Hc. simpl. f_equal.
  pose proof (column_length kept c vs Hok' Hc) as Hlen.
  assert (Hidx : index kept = range_index (length vs)).
  { rewrite Hlen. unfold kept, drop_duplicates in *.
    destruct (frame_empty df) eqn:He.
    - unfold frame_empty in He. apply orb_true_iff in He.
      destruct He as [He | He].
      + apply Nat.eqb_eq in He. unfold nrows in *. rewrite He.
        now destruct (index df).
      + apply Nat.eqb_eq in He. unfold get_column in Hc.
        destruct (columns df); [discriminate Hc | discriminate He].
    - unfold nrows. cbn [index]. unfold range_index.
      now rewrite length_map, length_seq. }
  rewrite Hidx. apply dict_of_range.
Qed.

Lemma plain_table_renumbered :
  exists out,
    outcome_of (get_spectra_geoparquet (reader_of plain_table) wkb_point_le
                  (Some "gewps") (Some "efth") (Some "2025031500") None
                  None None (Some true))
    = Return out
    /\ map fst out = names plain_table
    /\ forall c vs,
         get_column c (drop_duplicates plain_table) = Some vs ->
         dict_get String.eqb c out
         = Some (combine (range_index (length vs)) (map VCell vs)).
Proof.
  apply (deduplicated_output_is_renumbered (reader_of plain_table)
           wkb_point_le (Some "gewps") (Some "efth") (Some "2025031500")
           None None None
           "https://goc-dx.science.gc.ca/~swav000/geoparquet/gewps/2025031500_MSC_GEWPS_EFTH.geoparquet"
           plain_table).
  - reflexivity.
  - reflexivity.
  - exact plain_table_ok.
  - reflexivity.
Defined.

(** ** The index and the columns "index", "level_0" and "point" *)

Lemma transform_decoded (from_wkb : decoder)
    (remove_duplicates : option bool) (df : DataFrame cell)
    (gs : list cell) (coords : list (float * float)) :
  get_column "geometry" (kept_table remove_duplicates df) = Some gs ->
  Forall2 (fun g xy => from_wkb g = Return (Point (fst xy) (snd xy)))
          gs coords ->
  transform from_wkb remove_duplicates df
  = obind (reset_index
             (set_column "point" (map record_of coords)
                (geometry_dropped (kept_table remove_duplicates df))))
          (fun df' =>
    obind (drop_column "index" df') (fun df'' => Return (to_dict df''))).
Proof.
  intros Hg Hdec.
  rewrite (transform_with_geometry from_wkb remove_duplicates df gs Hg).
  rewrite (series_map_all from_wkb gs (map point_of coords)).
  - cbn [obind]. rewrite records_all. reflexivity.
  - clear Hg. induction Hdec; simpl; constructor; auto.
Qed.

Lemma existsb_filter_other (x g : string) (l : list string) :
  x <> g ->
  existsb (String.eqb x) (filter (fun k => negb (String.eqb g k)) l)
  = existsb (String.eqb x) l.
Proof.
  intros Hne. induction l as [|k l IH]; [reflexivity|].
  simpl. destruct (String.eqb g k) eqn:E; simpl.
  - apply String.eqb_eq in E. subst k.
    destruct (String.eqb x g) eqn:E2; [|exact IH].
    apply String.eqb_eq in E2. contradiction.
  - now rewrite IH.
Qed.

Lemma has_column_geometry_dropped (x : string) (df : DataFrame cell) :
  x <> "geometry" ->
  has_column x (geometry_dropped df) = has_column x df.
Proof.
  intros Hne. unfold has_column, names, geometry_dropped. cbn [columns].
  rewrite names_remove_named.
  rewrite (existsb_filter_other x "geometry" _ Hne).
  change (map fst (columns (frame_map VCell df)))
    with (names (frame_map VCell df)).
  now rewrite names_frame_map.
Qed.

Lemma names_replace_named {A} (name : string) (v : A)
    (l : list (string * A)) :
  map fst (replace_named name v l) = map fst l.
Proof. induction l as [|[k w] l IH]; simpl; [reflexivity | now rewrite IH]. Qed.

Lemma has_column_set_column {A} (x name : string) (v : list A)
    (df : DataFrame A) :
  has_column x (set_column name v df)
  = has_column x df || String.eqb x name.
Proof.
  unfold set_column, has_column at 1, names. cbn [columns].
  destruct (has_column name df) eqn:E.
  - rewrite names_replace_named. fold (names df). fold (has_column x df).
    destruct (String.eqb x name) eqn:E2.
    + apply String.eqb_eq in E2. subst x. now rewrite E.
    + now rewrite orb_false_r.
  - rewrite map_app, existsb_app. simpl. now rewrite orb_false_r.
Qed.

Lemma drop_index_missing (df : DataFrame value) :
  has_column "index" df = false ->
  drop_column "index" df
  = Raise (KeyError, dquote ++ "['index'] not found in axis" ++ dquote).
Proof. intros H. unfold drop_column. now rewrite H. Qed.

(** X15. When the table handled after the load has an index with a name
    other than "index" (and the table has no column of that name, nor
    "index", and the name is not "point"), the geometry branch fails with
    KeyError: the old labels are inserted under the name of the index and
    line 170 finds no column "index". *)
Theorem named_index_makes_geometry_branch_fail
    (read_parquet : reader) (from_wkb : decoder)
    (model variable date region cols : option string)
    (filters : option (list (list jval))) (remove_duplicates : option bool)
    (path : string) (df : DataFrame cell) (gs : list cell)
    (coords : list (float * float)) (name : string) :
  resolve_path model variable date region = Return path ->
  read_parquet path (option_map (PyStr.split ";") cols)
    (option_map (map Tuple) filters) = Return df ->
  index_name (kept_table remove_duplicates df) = Some name ->
  name <> "index" -> name <> "point" ->
  has_column name df = false ->
  has_column "index" df = false ->
  get_column "geometry" (kept_table remove_duplicates df) = Some gs ->
  Forall2 (fun g xy => from_wkb g = Return (Point (fst xy) (snd xy)))
          gs coords ->
  outcome_of (get_spectra_geoparquet read_parquet from_wkb model variable
                date region cols filters remove_duplicates)
  = Raise (KeyError, dquote ++ "['index'] not found in axis" ++ dquote).
Proof.
  intros Hp Hr Hname Hni Hnp Hcol Hidx Hg Hdec.
  rewrite (run_loaded read_parquet from_wkb model variable date region cols
             filters remove_duplicates path df Hp Hr).
  unfold outcome_of. cbn [snd].
  rewrite (transform_decoded from_wkb remove_duplicates df gs coords Hg Hdec).
  set (kept := kept_table remove_duplicates df) in *.
  assert (Hnames : names kept = names df).
  { unfold kept, kept_table.
    destruct (truthy remove_duplicates);
      [apply names_drop_duplicates | reflexivity]. }
  set (F2 := set_column "point" (map record_of coords)
               (geometry_dropped kept)).
  assert (Hhas : forall x, x <> "point" -> has_column x df = false ->
                           has_column x F2 = false).
  { intros x Hx Hdf. unfold F2. rewrite has_column_set_column.
    assert (Ex : String.eqb x "point" = false)
      by (apply String.eqb_neq; exact Hx).
    rewrite Ex, orb_false_r.
    destruct (String.eqb x "geometry") eqn:Eg.
    - apply String.eqb_eq in Eg. subst x.
      unfold has_column, names, geometry_dropped. cbn [columns].
      apply assoc_names. apply assoc_remove_named_same.
    - apply String.eqb_neq in Eg.
      rewrite has_column_geometry_dropped by exact Eg.
      now rewrite (has_column_same_names x kept df Hnames). }
  unfold reset_index.
  change (index_name F2) with (index_name kept). rewrite Hname.
  rewrite (Hhas name Hnp Hcol). cbn [obind].
  rewrite drop_index_missing; [reflexivity|].
  unfold has_column, names. cbn [columns map fst existsb].
  apply orb_false_iff. split.
  - apply String.eqb_neq. congruence.
  - apply (Hhas "index"); [discriminate | exact Hidx].
Qed.

Lemma named_index_example :
  outcome_of (get_spectra_geoparquet (reader_of table_named_index_2)
                wkb_point_le (Some "gewps") (Some "efth")
                (Some "2025031500") None None None None)
  = Raise (KeyError, dquote ++ "['index'] not found in axis" ++ dquote).
Proof.
  apply (named_index_makes_geometry_branch_fail
           (reader_of table_named_index_2) wkb_point_le (Some "gewps")
           (Some "efth") (Some "2025031500") None None None None
           "https://goc-dx.science.gc.ca/~swav000/geoparquet/gewps/2025031500_MSC_GEWPS_EFTH.geoparquet"
           table_named_index_2 [wkb_1_2; wkb_1_2]
           [(f_one, f_two); (f_one, f_two)] "time").
  - reflexivity.
  - reflexivity.
  - reflexivity.
  - discriminate.
  - discriminate.
  - reflexivity.
  - reflexivity.
  - reflexivity.
  - repeat (constructor; [reflexivity|]). constructor.
Defined.

(** X16. [remove_duplicates] resets the index: a table with rows whose
    index has a name (the case in which the geometry branch fails
    without it) goes through when duplicates are removed, and comes out
    with "point" after its other columns. *)
Theorem remove_duplicates_clears_the_index_name
    (read_parquet : reader) (from_wkb : decoder)
    (model variable date region cols : option string)
    (filters : option (list (list jval)))
    (path : string) (df : DataFrame cell) (gs : list cell) :
  resolve_path model variable date region = Return path ->
  read_parquet path (option_map (PyStr.split ";") cols)
    (option_map (map Tuple) filters) = Return df ->
  frame_ok df ->
  frame_empty df = false ->
  has_column "index" df = false ->
  has_column "point" df = false ->
  get_column "geometry" df = Some gs ->
  Forall (fun g => exists x y, from_wkb g = Return (Point x y)) gs ->
  exists out,
    outcome_of (get_spectra_geoparquet read_parquet from_wkb model variable
                  date region cols filters (Some true))
    = Return out
    /\ map fst out
       = (filter (fun k => negb (String.eqb "geometry" k)) (names df)
          ++ ["point"])%list.
Proof.
  intros Hp Hr Hok Hne Hindex Hpoint Hgeo Hvalid.
  set (kept := drop_duplicates df).
  assert (Hnames : names kept = names df) by apply names_drop_duplicates.
  assert (Hname : index_name kept = None)
    by (unfold kept, drop_duplicates; now rewrite Hne).
  destruct (get_column_kept (Some true) df "geometry" gs _ Hgeo Hvalid)
    as [gs' [Hgeo' Hvalid']].
  cbn [truthy] in Hgeo'. fold kept in Hgeo'.
  destruct (decode_all from_wkb gs' Hvalid') as [coords [_ Hmap]].
  assert (Hconv := convert_geometry_result from_wkb kept gs' coords Hname).
  rewrite !(has_column_same_names _ kept df Hnames) in Hconv.
  specialize (Hconv Hindex Hpoint (get_column_some _ _ _ Hgeo) Hmap).
  eexists. split.
  { rewrite (run_loaded read_parquet from_wkb model variable date region
               cols filters (Some true) path df Hp Hr).
    unfold outcome_of, transform. cbn [snd truthy]. fold kept.
    rewrite Hgeo', Hconv. reflexivity. }
  assert (Hfinal :
            map fst (remove_named "geometry" (columns (frame_map VCell kept))
                     ++ [("point", map record_of coords)])%list
            = (filter (fun k => negb (String.eqb "geometry" k)) (names df)
               ++ ["point"])%list).
  { rewrite map_app, names_remove_named.
    change (map fst (columns (frame_map VCell kept)))
      with (names (frame_map VCell kept)).
    now rewrite names_frame_map, Hnames. }
  rewrite to_dict_keys; [exact Hfinal|].
  unfold names. cbn [columns]. rewrite Hfinal. apply NoDup_app.
  - apply NoDup_filter. apply Hok.
  - constructor; [intros [] | constructor].
  - intros k Hk [<- | []]. apply filter_In in Hk. destruct Hk as [Hk _].
    apply has_column_In in Hk. congruence.
Qed.

Lemma table_named_index_2_ok : frame_ok table_named_index_2.
Proof. frame_ok_by_computation. Qed.

Lemma remove_duplicates_clears_example :
  exists out,
    outcome_of (get_spectra_geoparquet (reader_of table_named_index_2)
                  wkb_point_le (Some "gewps") (Some "efth")
                  (Some "2025031500") None None None (Some true))
    = Return out
    /\ map fst out
       = (filter (fun k => negb (String.eqb "geometry" k))
                 (names table_named_index_2)
          ++ ["point"])%list.
Proof.
  apply (remove_duplicates_clears_the_index_name
           (reader_of table_named_index_2) wkb_point_le (Some "gewps")
           (Some "efth") (Some "2025031500") None None None
           "https://goc-dx.science.gc.ca/~swav000/geoparquet/gewps/2025031500_MSC_GEWPS_EFTH.geoparquet"
           table_named_index_2 [wkb_1_2; wkb_1_2]).
  - reflexivity.
  - reflexivity.
  - exact table_named_index_2_ok.
  - reflexivity.
  - reflexivity.
  - reflexivity.
  - reflexivity.
  - repeat (constructor; [do 2 eexists; reflexivity|]). constructor.
Defined.

Lemma kept_table_names (remove_duplicates : option bool)
    (df : DataFrame cell) :
  names (kept_table remove_duplicates df) = names df.
Proof.
  unfold kept_table. destruct (truthy remove_duplicates);
    [apply names_drop_duplicates | reflexivity].
Qed.

Lemma has_column_after_point (remove_duplicates : option bool)
    (df : DataFrame cell) (records : list value) (x : string) :
  x <> "geometry" ->
  has_column x (set_column "point" records
                  (geometry_dropped (kept_table remove_duplicates df)))
  = has_column x df || String.eqb x "point".
Proof.
  intros Hx. rewrite has_column_set_column.
  rewrite has_column_geometry_dropped by exact Hx.
  now rewrite (has_column_same_names x _ df
                 (kept_table_names remove_duplicates df)).
Qed.

Lemma names_geometry_dropped (df : DataFrame cell) :
  names (geometry_dropped df)
  = filter (fun k => negb (String.eqb "geometry" k)) (names df).
Proof.
  unfold names, geometry_dropped. cbn [columns].
  rewrite names_remove_named.
  change (map fst (columns (frame_map VCell df)))
    with (names (frame_map VCell df)).
  now rewrite names_frame_map.
Qed.

Lemma filter_filter_names (p q : string -> bool) (l : list string) :
  filter p (filter q l) = filter (fun k => q k && p k) l.
Proof.
  induction l as [|k l IH]; [reflexivity|].
  simpl. destruct (q k); simpl; [destruct (p k)|]; now rewrite IH.
Qed.

(** X17. A loaded table with a column "index" (and no "level_0" or
    "point", and an index without a name) loses that column in the
    geometry branch: the old row labels come out under the key "level_0",
    first, the column "index" is not in the output, and "point" is last. *)
Theorem loaded_index_column_is_replaced_by_level_0
    (read_parquet : reader) (from_wkb : decoder)
    (model variable date region cols : option string)
    (filters : option (list (list jval))) (remove_duplicates : option bool)
    (path : string) (df : DataFrame cell) (gs : list cell)
    (coords : list (float * float)) :
  resolve_path model variable date region = Return path ->
  read_parquet path (option_map (PyStr.split ";") cols)
    (option_map (map Tuple) filters) = Return df ->
  frame_ok df ->
  index_name (kept_table remove_duplicates df) = None ->
  has_column "index" df = true ->
  has_column "level_0" df = false ->
  has_column "point" df = false ->
  get_column "geometry" (kept_table remove_duplicates df) = Some gs ->
  Forall2 (fun g xy => from_wkb g = Return (Point (fst xy) (snd xy)))
          gs coords ->
  let kept := kept_table remove_duplicates df in
  exists out,
    outcome_of (get_spectra_geoparquet read_parquet from_wkb model variable
                  date region cols filters remove_duplicates)
    = Return out
    /\ map fst out
       = ("level_0"
          :: filter (fun k => negb (String.eqb "geometry" k)
                              && negb (String.eqb "index" k)) (names df)
          ++ ["point"])%list
    /\ dict_get String.eqb "index" out = None
    /\ dict_get String.eqb "level_0" out
       = Some (combine (range_index (nrows kept)) (map VCell (index kept))).
Proof.
  intros Hp Hr Hok Hname Hindex Hlevel Hpoint Hg Hdec kept.
  fold kept in Hname.
  set (records := map record_of coords).
  set (F2 := set_column "point" records (geometry_dropped kept)).
  assert (Hcols2 : columns F2
                   = (columns (geometry_dropped kept)
                      ++ [("point", records)])%list).
  { unfold F2, set_column. cbn [columns].
    rewrite has_column_geometry_dropped by discriminate.
    now rewrite (has_column_same_names "point" kept df
                   (kept_table_names remove_duplicates df)), Hpoint. }
  set (final := mkFrame None (range_index (nrows kept))
                  (("level_0", map VCell (index kept))
                   :: remove_named "index" (columns F2))).
  assert (Hrun : transform from_wkb remove_duplicates df
                 = Return (to_dict final)).
  { rewrite (transform_decoded from_wkb remove_duplicates df gs coords Hg
               Hdec).
    fold kept records F2. unfold reset_index.
    change (index_name F2) with (index_name kept). rewrite Hname.
    unfold F2, kept, records.
    rewrite (has_column_after_point remove_duplicates df _ "index")
      by discriminate.
    rewrite Hindex. cbn [orb].
    rewrite (has_column_after_point remove_duplicates df _ "level_0")
      by discriminate.
    rewrite Hlevel. cbn [orb String.eqb Ascii.eqb Bool.eqb obind].
    unfold drop_column, has_column at 1, names. cbn [columns map fst existsb].
    fold (names (set_column "point" (map record_of coords)
                   (geometry_dropped (kept_table remove_duplicates df)))).
    fold (has_column "index"
            (set_column "point" (map record_of coords)
               (geometry_dropped (kept_table remove_duplicates df)))).
    rewrite (has_column_after_point remove_duplicates df _ "index")
      by discriminate.
    rewrite Hindex. cbn [orb obind String.eqb Ascii.eqb Bool.eqb].
    reflexivity. }
  assert (Hfinal_names :
            names final
            = ("level_0"
               :: filter (fun k => negb (String.eqb "geometry" k)
                                   && negb (String.eqb "index" k)) (names df)
               ++ ["point"])%list).
  { unfold names, final. cbn [columns map fst]. f_equal.
    rewrite names_remove_named, Hcols2, map_app, filter_app.
    change (map fst (columns (geometry_dropped kept)))
      with (names (geometry_dropped kept)).
    rewrite names_geometry_dropped, filter_filter_names.
    unfold kept. rewrite kept_table_names. reflexivity. }
  assert (Hnd : NoDup (names final)).
  { rewrite Hfinal_names. constructor.
    - intros Hin. apply in_app_or in Hin. destruct Hin as [Hin | [Hin | []]];
        [|discriminate Hin].
      apply filter_In in Hin. destruct Hin as [Hin _].
      apply has_column_In in Hin. congruence.
    - apply NoDup_app.
      + apply NoDup_filter. apply Hok.
      + constructor; [intros [] | constructor].
      + intros k Hk [<- | []]. apply filter_In in Hk.
        destruct Hk as [Hk _]. apply has_column_In in Hk. congruence. }
  exists (to_dict final). split.
  { rewrite (run_loaded read_parquet from_wkb model variable date region
               cols filters remove_duplicates path df Hp Hr).
    exact Hrun. }
  split; [rewrite to_dict_keys by exact Hnd; exact Hfinal_names|].
  split.
  - rewrite to_dict_lookup by exact Hnd.
    unfold get_column, final. cbn [columns assoc String.eqb Ascii.eqb
                                     Bool.eqb].
    now rewrite assoc_remove_named_same.
  - rewrite to_dict_lookup by exact Hnd.
    unfold get_column, final. cbn [columns assoc String.eqb Ascii.eqb
                                     Bool.eqb option_map index].
    f_equal. apply dict_of_range.
Qed.

Lemma table_with_index_column_ok : frame_ok table_with_index_column.
Proof. frame_ok_by_computation. Qed.

Lemma loaded_index_column_example :
  exists out,
    outcome_of (get_spectra_geoparquet (reader_of table_with_index_column)
                  wkb_point_le (Some "gewps") (Some "efth")
                  (Some "2025031500") None None None None)
    = Return out
    /\ map fst out = ["level_0"; "point"]
    /\ dict_get String.eqb "index" out = None
    /\ dict_get String.eqb "level_0" out
       = Some [(CInt 0, VCell (CInt 40)); (CInt 1, VCell (CInt 50))].
Proof.
  apply (loaded_index_column_is_replaced_by_level_0
           (reader_of table_with_index_column) wkb_point_le (Some "gewps")
           (Some "efth") (Some "2025031500") None None None None
           "https://goc-dx.science.gc.ca/~swav000/geoparquet/gewps/2025031500_MSC_GEWPS_EFTH.geoparquet"
           table_with_index_column [wkb_1_2; wkb_2_1]
           [(f_one, f_two); (f_two, f_one)]).
  - reflexivity.
  - reflexivity.
  - exact table_with_index_column_ok.
  - reflexivity.
  - reflexivity.
  - reflexivity.
  - reflexivity.
  - reflexivity.
  - repeat (constructor; [reflexivity|]). constructor.
Defined.

(** X18. A loaded table with both a column "index" and a column
    "level_0" (its index without a name) makes the geometry branch raise
    ValueError "cannot insert level_0, already exists"; [execute], which
    called the operation after its checks, logs it and raises it as
    ProcessorExecuteError. *)
Theorem index_and_level_0_columns_raise_ValueError
    (read_parquet : reader) (from_wkb : decoder) (data : payload)
    (required : list string) (path : string) (df : DataFrame cell)
    (gs : list cell) (coords : list (float * float)) :
  required_params (p_model data) = Return required ->
  forallb (has_key data) required = true ->
  resolve_path (p_model data) (p_variable data) (p_date data)
    (p_region data) = Return path ->
  read_parquet path (option_map (PyStr.split ";") (p_columns data))
    (option_map (map Tuple) (p_filters data)) = Return df ->
  index_name (kept_table (p_remove_duplicates data) df) = None ->
  has_column "index" df = true ->
  has_column "level_0" df = true ->
  get_column "geometry" (kept_table (p_remove_duplicates data) df)
  = Some gs ->
  Forall2 (fun g xy => from_wkb g = Return (Point (fst xy) (snd xy)))
          gs coords ->
  let read := ReadParquet path
                (option_map (PyStr.split ";") (p_columns data))
                (option_map (map Tuple) (p_filters data)) in
  call_operation (get_spectra_geoparquet read_parquet from_wkb) data
  = ([read], Raise (ValueError, "cannot insert level_0, already exists"))
  /\ execute read_parquet from_wkb data
     = ([read;
         LogError
           "Process execution error: cannot insert level_0, already exists"],
        Raise (ProcessorExecuteError,
               "Process execution error: cannot insert level_0, already exists")).
Proof.
  intros Hreq Hf Hp Hr Hname Hindex Hlevel Hg Hdec read.
  assert (Hop : call_operation
                  (get_spectra_geoparquet read_parquet from_wkb) data
                = ([read], Raise (ValueError,
                                  "cannot insert level_0, already exists"))).
  { unfold call_operation.
    rewrite (run_loaded read_parquet from_wkb _ _ _ _ _ _
               (p_remove_duplicates data) path df Hp Hr).
    fold read. f_equal.
    rewrite (transform_decoded from_wkb _ df gs coords Hg Hdec).
    unfold reset_index.
    match goal with
    | |- context [index_name (set_column ?n ?v ?F)] =>
        change (index_name (set_column n v F))
          with (index_name (kept_table (p_remove_duplicates data) df))
    end.
    rewrite Hname.
    rewrite (has_column_after_point _ df _ "index") by discriminate.
    rewrite Hindex. cbn [orb].
    rewrite (has_column_after_point _ df _ "level_0") by discriminate.
    rewrite Hlevel. reflexivity. }
  split; [exact Hop|].
  unfold execute.
  now rewrite (execute_with_failure _ data required _ ValueError _ Hreq Hf
                 Hop).
Qed.

Lemma index_and_level_0_example :
  execute (reader_of table_with_level_0) wkb_point_le
    PROCESS_METADATA_example
  = ([ReadParquet
        "https://goc-dx.science.gc.ca/~swav000/geoparquet/gewps/2025031500_MSC_GEWPS_EFTH.geoparquet"
        (Some ["station_name"; "member"])
        (Some [ Tuple [JStr "station_name"; JStr "=="; JStr "00N000E"];
                Tuple [JStr "member"; JStr "=="; JInt 0] ]);
      LogError
        "Process execution error: cannot insert level_0, already exists"],
     Raise (ProcessorExecuteError,
            "Process execution error: cannot insert level_0, already exists")).
Proof.
  refine (proj2 (index_and_level_0_columns_raise_ValueError
                   (reader_of table_with_level_0) wkb_point_le
                   PROCESS_METADATA_example ["model"; "variable"; "date"]
                   "https://goc-dx.science.gc.ca/~swav000/geoparquet/gewps/2025031500_MSC_GEWPS_EFTH.geoparquet"
                   table_with_level_0 [wkb_1_2] [(f_one, f_two)]
                   _ _ _ _ _ _ _ _ _)).
  - reflexivity.
  - reflexivity.
  - reflexivity.
  - reflexivity.
  - reflexivity.
  - reflexivity.
  - reflexivity.
  - reflexivity.
  - repeat (constructor; [reflexivity|]). constructor.
Defined.

Lemma assoc_replace_same {A} (name : string) (v : A)
    (l : list (string * A)) :
  existsb (String.eqb name) (map fst l) = true ->
  assoc name (replace_named name v l) = Some v.
Proof.
  induction l as [|[k w] l IH]; simpl; [discriminate|].
  destruct (String.eqb name k); simpl; [reflexivity | exact IH].
Qed.

Lemma assoc_replace_other {A} (name c : string) (v : A)
    (l : list (string * A)) :
  c <> name -> assoc c (replace_named name v l) = assoc c l.
Proof.
  intros Hne. induction l as [|[k w] l IH]; simpl; [reflexivity|].
  destruct (String.eqb c k) eqn:E; [|exact IH].
  apply String.eqb_eq in E. subst k.
  destruct (String.eqb name c) eqn:E2; [|reflexivity].
  apply String.eqb_eq in E2. congruence.
Qed.

(** X19. A loaded table that already has a column "point" (index without
    a name, no column "index") keeps its column order in the geometry
    branch, minus "geometry": "point" stays where it was and now holds
    the records of the decoded points, the loaded cells of that column
    are gone, and the columns other than "point" keep their cells. *)
Theorem loaded_point_column_is_overwritten_in_place
    (read_parquet : reader) (from_wkb : decoder)
    (model variable date region cols : option string)
    (filters : option (list (list jval))) (remove_duplicates : option bool)
    (path : string) (df : DataFrame cell) (gs : list cell)
    (coords : list (float * float)) :
  resolve_path model variable date region = Return path ->
  read_parquet path (option_map (PyStr.split ";") cols)
    (option_map (map Tuple) filters) = Return df ->
  frame_ok df ->
  index_name (kept_table remove_duplicates df) = None ->
  has_column "index" df = false ->
  has_column "point" df = true ->
  get_column "geometry" (kept_table remove_duplicates df) = Some gs ->
  Forall2 (fun g xy => from_wkb g = Return (Point (fst xy) (snd xy)))
          gs coords ->
  let kept := kept_table remove_duplicates df in
  let rows := range_index (nrows kept) in
  exists out,
    outcome_of (get_spectra_geoparquet read_parquet from_wkb model variable
                  date region cols filters remove_duplicates)
    = Return out
    /\ map fst out
       = filter (fun k => negb (String.eqb "geometry" k)) (names df)
    /\ dict_get String.eqb "point" out
       = Some (combine rows
                 (map (fun xy => VDict [("y", snd xy); ("x", fst xy)])
                      coords))
    /\ (forall c vs,
          c <> "geometry" -> c <> "point" ->
          get_column c kept = Some vs ->
          dict_get String.eqb c out = Some (combine rows (map VCell vs))).
Proof.
  intros Hp Hr Hok Hname Hindex Hpoint Hg Hdec kept rows.
  fold kept in Hname.
  set (records := map record_of coords).
  set (F2 := set_column "point" records (geometry_dropped kept)).
  assert (Hpt : has_column "point" (geometry_dropped kept) = true).
  { rewrite has_column_geometry_dropped by discriminate.
    now rewrite (has_column_same_names "point" kept df
                   (kept_table_names remove_duplicates df)). }
  assert (Hcols2 : columns F2
                   = replace_named "point" records
                       (columns (geometry_dropped kept))).
  { unfold F2, set_column. cbn [columns]. now rewrite Hpt. }
  set (final := mkFrame None rows (columns F2)).
  assert (Hidx2 : has_column "index" F2 = false).
  { unfold F2, kept, records.
    rewrite (has_column_after_point remove_duplicates df _ "index")
      by discriminate.
    now rewrite Hindex. }
  assert (Hrun : transform from_wkb remove_duplicates df
                 = Return (to_dict final)).
  { rewrite (transform_decoded from_wkb remove_duplicates df gs coords Hg
               Hdec).
    fold kept records F2. unfold reset_index.
    change (index_name F2) with (index_name kept). rewrite Hname.
    rewrite Hidx2, Hidx2. cbn [obind].
    unfold drop_column, has_column at 1, names.
    cbn [columns map fst existsb String.eqb Ascii.eqb Bool.eqb orb obind].
    unfold final, rows. do 3 f_equal.
    unfold remove_named at 1.
    cbn [filter fst negb String.eqb Ascii.eqb Bool.eqb].
    apply (remove_named_absent "index"). exact Hidx2. }
  assert (Hfinal_names :
            names final
            = filter (fun k => negb (String.eqb "geometry" k)) (names df)).
  { unfold names, final. cbn [columns]. rewrite Hcols2, names_replace_named.
    change (map fst (columns (geometry_dropped kept)))
      with (names (geometry_dropped kept)).
    rewrite names_geometry_dropped. unfold kept.
    now rewrite kept_table_names. }
  assert (Hnd : NoDup (names final))
    by (rewrite Hfinal_names; apply NoDup_filter; apply Hok).
  assert (Hlook : forall c,
            dict_get String.eqb c (to_dict final)
            = option_map (fun vs => combine rows vs) (get_column c final)).
  { intros c. rewrite to_dict_lookup by exact Hnd.
    destruct (get_column c final); [|reflexivity].
    simpl. f_equal. apply dict_of_range. }
  exists (to_dict final). split.
  { rewrite (run_loaded read_parquet from_wkb model variable date region
               cols filters remove_duplicates path df Hp Hr).
    exact Hrun. }
  split; [rewrite to_dict_keys by exact Hnd; exact Hfinal_names|].
  split.
  - rewrite Hlook. unfold get_column, final. cbn [columns]. rewrite Hcols2.
    rewrite assoc_replace_same; [reflexivity | exact Hpt].
  - intros c vs Hcg Hcp Hc.
    rewrite Hlook. unfold get_column, final. cbn [columns]. rewrite Hcols2.
    rewrite assoc_replace_other by exact Hcp.
    unfold geometry_dropped. cbn [columns].
    rewrite assoc_remove_named_other by exact Hcg.
    change (assoc c (columns (frame_map VCell kept)))
      with (get_column c (frame_map VCell kept)).
    now rewrite get_column_frame_map, Hc.
Qed.

Lemma table_with_point_first_ok : frame_ok table_with_point_first.
Proof. frame_ok_by_computation. Qed.

Lemma loaded_point_column_example :
  exists out,
    outcome_of (get_spectra_geoparquet (reader_of table_with_point_first)
                  wkb_point_le (Some "gewps") (Some "efth")
                  (Some "2025031500") None None None None)
    = Return out
    /\ map fst out = ["point"; "member"]
    /\ dict_get String.eqb "point" out
       = Some [(CInt 0, VDict [("y", f_two); ("x", f_one)])].
Proof.
  destruct (loaded_point_column_is_overwritten_in_place
              (reader_of table_with_point_first) wkb_point_le (Some "gewps")
              (Some "efth") (Some "2025031500") None None None None
              "https://goc-dx.science.gc.ca/~swav000/geoparquet/gewps/2025031500_MSC_GEWPS_EFTH.geoparquet"
              table_with_point_first [wkb_1_2] [(f_one, f_two)]
              eq_refl eq_refl table_with_point_first_ok eq_refl eq_refl
              eq_refl eq_refl
              (Forall2_cons wkb_1_2 (f_one, f_two) eq_refl (Forall2_nil _)))
    as [out [H1 [H2 [H3 _]]]].
  exists out. split; [exact H1|]. split; [exact H2 | exact H3].
Defined.

(** ** The declared inputs and the representation *)

(** X20. The inputs that PROCESS_METADATA declares with minOccurs 1 are
    the parameters [execute] requires, for every known model, with one
    exception: [execute] requires "region" for the regional models
    (rdwps, rewps), and PROCESS_METADATA declares no input "region". *)
Theorem declared_inputs_and_required_parameters
    (m : string) (required : list string) :
  required_params (Some m) = Return required ->
  (forall d, In d PROCESS_METADATA_inputs ->
             (in_minOccurs d = 1 <-> In (in_name d) required))
  /\ (forall param, In param required ->
        In param (map in_name PROCESS_METADATA_inputs)
        \/ (param = "region" /\ In (PyStr.lower m) family_B))
  /\ (In "region" required <-> In (PyStr.lower m) family_B)
  /\ ~ In "region" (map in_name PROCESS_METADATA_inputs).
Proof.
  intros H.
  destruct (required_params_inversion _ _ H) as [m' [Hm Hfam]].
  injection Hm as <-.
  assert (Hno : ~ In "region" (map in_name PROCESS_METADATA_inputs))
    by (simpl; intuition discriminate).
  destruct Hfam as [[HA ->] | [HB ->]].
  - split.
    { intros d Hd. simpl in Hd.
      destruct Hd as [<- | [<- | [<- | [<- | [<- | [<- | []]]]]]]; simpl;
        split; intros H0; try discriminate H0; auto;
        intuition discriminate. }
    split.
    { intros param Hin. left. simpl in *. intuition. }
    split; [|exact Hno].
    split.
    + simpl. intuition discriminate.
    + intros HB. pose proof (family_B_not_A _ HB) as HnA.
      apply in_tuple_In in HA. congruence.
  - split.
    { intros d Hd. simpl in Hd.
      destruct Hd as [<- | [<- | [<- | [<- | [<- | [<- | []]]]]]]; simpl;
        split; intros H0; try discriminate H0; auto;
        intuition discriminate. }
    split.
    { intros param Hin. simpl in Hin.
      destruct Hin as [<- | [<- | [<- | [<- | []]]]]; simpl; auto 10. }
    split; [|exact Hno].
    split; [intros _; exact HB | intros _; simpl; auto].
Qed.

Lemma declared_inputs_example :
  In "region" ["model"; "variable"; "date"; "region"]
  <-> In (PyStr.lower "REWPS") family_B.
Proof.
  refine (proj1 (proj2 (proj2 (declared_inputs_and_required_parameters
                                 "REWPS"
                                 ["model"; "variable"; "date"; "region"]
                                 _)))).
  reflexivity.
Defined.

(** X21. The representation of a processor determines its name: two
    processors with the same representation have the same name. *)
Theorem processor_repr_injective (n1 n2 : string) :
  processor_repr n1 = processor_repr n2 -> n1 = n2.
Proof.
  unfold processor_repr. simpl. intros H. now inversion H.
Qed.

Lemma processor_repr_example : "wind-data" = "wind-data".
Proof.
  apply (processor_repr_injective "wind-data" "wind-data"). reflexivity.
Defined.
